(** * Prompt Studio: the generation client and the component that drives it

  A shallow embedding of [src/services/geminiService.ts] and of the event
  handlers of [src/App.tsx], followed by the properties of the request and
  response flow.

  ECMAScript strings are sequences of 16-bit code units; they are modelled
  as lists of code units, so that [trim], [startsWith] and concatenation
  are the operations of the language on every string, not only on ASCII
  ones.  Remote calls, the file reader and the browser are an environment
  of oracles; every call is recorded in a log, which is what the
  statements "is never invoked" and "sends exactly" are about.  An [async]
  handler is modelled as running to its end once started: each [await] is
  a step of one sequential computation. *)

From Stdlib Require Import List NArith String Ascii Bool.
From Stdlib Require Import Arith Lia.
From ExtLib Require Import Structures.Monad Structures.MonadExc.
Import ListNotations.
Import MonadNotation.
Local Open Scope monad_scope.
Local Open Scope N_scope.

(** ** ECMAScript values used by the program *)

Module Js.

(** A string value: its UTF-16 code units. *)
Definition jsstring : Type := list N.

(** A source literal without escapes. *)
Definition lit (s : string) : jsstring :=
  map N_of_ascii (list_ascii_of_string s).

(** The escape [\n] of a literal. *)
Definition LF : jsstring := [10].

Fixpoint eqb (a b : jsstring) : bool :=
  match a, b with
  | [], [] => true
  | x :: a', y :: b' => (x =? y) && eqb a' b'
  | _, _ => false
  end.

(** [ToBoolean] on a string: the empty string is the only falsy one. *)
Definition truthy (s : jsstring) : bool :=
  match s with
  | [] => false
  | _ :: _ => true
  end.

(** [x || d] where [x] is a string or [undefined]. *)
Definition orElse (x : option jsstring) (d : jsstring) : jsstring :=
  match x with
  | Some s => if truthy s then s else d
  | None => d
  end.

(** [`${x}`] where [x] is a string or [undefined]. *)
Definition interpolate (x : option jsstring) : jsstring :=
  match x with
  | Some s => s
  | None => lit "undefined"
  end.

(** A parameter with a default value: [undefined] selects the default. *)
Definition defaultTo (x : option jsstring) (d : jsstring) : jsstring :=
  match x with
  | Some v => v
  | None => d
  end.

(** [s.startsWith(p)]. *)
Fixpoint startsWith (s p : jsstring) {struct p} : bool :=
  match p, s with
  | [], _ => true
  | y :: p', x :: s' => (x =? y) && startsWith s' p'
  | _ :: _, [] => false
  end.

(** WhiteSpace and LineTerminator code points of ECMA-262, the characters
    that [String.prototype.trim] removes.  All of them are in the basic
    plane, so one code unit each. *)
Definition isWhiteSpace (c : N) : bool :=
  (c =? 9) || (c =? 10) || (c =? 11) || (c =? 12) || (c =? 13) ||
  (c =? 32) || (c =? 160) || (c =? 5760) ||
  ((8192 <=? c) && (c <=? 8202)) ||
  (c =? 8232) || (c =? 8233) || (c =? 8239) || (c =? 8287) ||
  (c =? 12288) || (c =? 65279).

Fixpoint trimStart (s : jsstring) : jsstring :=
  match s with
  | [] => []
  | c :: s' => if isWhiteSpace c then trimStart s' else s
  end.

Definition trimEnd (s : jsstring) : jsstring :=
  rev (trimStart (rev s)).

(** [s.trim()]. *)
Definition trim (s : jsstring) : jsstring :=
  trimEnd (trimStart s).

(** An [Error] object, as far as the program looks at it. *)
Record exn : Type := mkExn { name : jsstring; message : jsstring }.

(** [new Error(msg)]. *)
Definition Error (msg : jsstring) : exn :=
  {| name := lit "Error"; message := msg |}.

(** The outcome of evaluating something that may throw. *)
Inductive result (A : Type) : Type :=
| Ok (a : A)
| Throw (e : exn).

Arguments Ok {A} a.
Arguments Throw {A} e.

End Js.

Import Js.

(** ** The browser's [File] and the SDK's request and response types *)

(** A [File]: only its metadata is read by the program. *)
Record File : Type := mkFile {
  fileName : jsstring;
  type : jsstring;
  size : N
}.

(** [Blob] of the SDK: both fields are optional. *)
Record Blob : Type := mkBlob {
  mimeType : option jsstring;
  data : option jsstring
}.

(** [Part] of the SDK, with the two fields the program uses. *)
Record Part : Type := mkPart {
  text : option jsstring;
  inlineData : option Blob
}.

Record Content : Type := mkContent { parts : option (list Part) }.

Record Candidate : Type := mkCandidate { content : option Content }.

(** [GenerateContentResponse]: the candidates and the [text] accessor. *)
Record GenerateContentResponse : Type := mkResponse {
  candidates : option (list Candidate);
  responseText : option jsstring
}.

(** The argument of [ai.models.generateContent]; [imageConfig] holds the
  [config.imageConfig.aspectRatio] of the call when the call has one. *)
Record GenerateContentParameters : Type := mkParams {
  model : jsstring;
  contents : list Part;
  imageConfig : option jsstring
}.

(** ** Effects *)

(** What the program does to the outside world. *)
Inductive Effect : Type :=
| GenerateContent (req : GenerateContentParameters)
| FileToBase64 (f : File)
| CreateObjectURL (f : File)
| RevokeObjectURL (url : jsstring)
| ConsoleError (e : exn)
| ClipboardWriteText (t : jsstring)
| SetTimeout (ms : N).

(** The environment: what the outside world answers, given everything the
  program has done so far.  [fileToBase64] is the helper of
  [utils/fileUtils], which is not part of the sources at hand. *)
Record Env : Type := mkEnv {
  remoteGenerateContent :
    list Effect -> GenerateContentParameters -> result GenerateContentResponse;
  readFileToBase64 : list Effect -> File -> result jsstring;
  objectURL : list Effect -> File -> jsstring
}.

(** Computations of the service module: they may throw and they extend the
  log of effects. *)
Definition IO (A : Type) : Type := list Effect -> result A * list Effect.

Definition IO_ret {A} (a : A) : IO A := fun l => (Ok a, l).

Definition IO_bind {A B} (m : IO A) (k : A -> IO B) : IO B :=
  fun l =>
    match m l with
    | (Ok a, l') => k a l'
    | (Throw e, l') => (Throw e, l')
    end.

Definition IO_raise {A} (e : exn) : IO A := fun l => (Throw e, l).

Definition IO_catch {A} (m : IO A) (h : exn -> IO A) : IO A :=
  fun l =>
    match m l with
    | (Ok a, l') => (Ok a, l')
    | (Throw e, l') => h e l'
    end.

#[global] Instance Monad_IO : Monad IO :=
  {| ret := @IO_ret; bind := @IO_bind |}.

#[global] Instance Exc_IO : MonadExc exn IO :=
  {| raise := @IO_raise; catch := @IO_catch |}.

(** Lift an outcome that is already known into the monad. *)
Definition ofResult {A} (r : result A) : IO A := fun l => (r, l).

(** ** [services/geminiService.ts] *)

Module GeminiService.
Section WithEnv.

Variable env : Env.

(** [await ai.models.generateContent(req)]. *)
Definition generateContent (req : GenerateContentParameters)
  : IO GenerateContentResponse :=
  fun l => (remoteGenerateContent env l req, l ++ [GenerateContent req]).

Definition describeInstruction : jsstring :=
  lit "Analyze this media in extreme detail. Generate a highly descriptive prompt that could be used in an AI image or video generator to recreate this exact scene. Include details about the subject, lighting, camera angle, colors, mood, style, texture, and any specific actions or movements if it's a video. Make it a comprehensive, comma-separated or well-structured paragraph prompt suitable for high-end AI generators like Midjourney, Stable Diffusion, or Veo. Output ONLY the prompt text, without any introductory or concluding remarks.".

(** [{ text: t }]. *)
Definition textPart (t : jsstring) : Part :=
  {| text := Some t; inlineData := None |}.

(** The request of lines 8 to 18. *)
Definition describeRequest (mimeType base64Data : jsstring)
  : GenerateContentParameters :=
  let prompt := describeInstruction in
  let mediaPart :=
    {| text := None;
       inlineData := Some {| mimeType := Some mimeType;
                             data := Some base64Data |} |} in
  {| model := lit "gemini-3.1-pro-preview";
     contents := [mediaPart; textPart prompt];
     imageConfig := None |}.

Definition generatePromptFromMedia (mimeType base64Data : jsstring)
  : IO jsstring :=
  response <- generateContent (describeRequest mimeType base64Data) ;;
  ret (orElse (responseText response) (lit "Failed to generate prompt.")).

(** Lines 29 to 35: [finalPrompt] and its two conditional appends. *)
Definition composePrompt (prompt style negativePrompt : jsstring)
  : jsstring :=
  let finalPrompt := prompt in
  let finalPrompt :=
    if negb (Js.eqb style (lit "none"))
    then finalPrompt ++ LF ++ lit "Style: " ++ style
    else finalPrompt in
  let finalPrompt :=
    if truthy negativePrompt
    then finalPrompt ++ LF ++ lit "Negative prompt: " ++ negativePrompt
    else finalPrompt in
  finalPrompt.

(** [response.candidates?.[0]?.content?.parts || []]. *)
Definition responseParts (response : GenerateContentResponse)
  : list Part :=
  match candidates response with
  | None => []
  | Some cs =>
    match nth_error cs 0 with
    | None => []
    | Some c =>
      match content c with
      | None => []
      | Some ct =>
        match parts ct with
        | None => []
        | Some ps => ps
        end
      end
    end
  end.

(** The data URI of line 52. *)
Definition dataUri (b : Blob) : jsstring :=
  lit "data:" ++ orElse (mimeType b) (lit "image/png")
    ++ lit ";base64," ++ interpolate (data b).

(** The loop of lines 50 to 55. *)
Fixpoint scanParts (ps : list Part) : result jsstring :=
  match ps with
  | [] => Throw (Error (lit "No image generated"))
  | part :: rest =>
    match inlineData part with
    | Some b => Ok (dataUri b)
    | None => scanParts rest
    end
  end.

(** The request of lines 37 to 47. *)
Definition imageRequest (finalPrompt aspectRatio : jsstring)
  : GenerateContentParameters :=
  {| model := lit "gemini-2.5-flash-image";
     contents := [textPart finalPrompt];
     imageConfig := Some aspectRatio |}.

(** The parameters after [prompt] have default values, used when the
    argument is [undefined]. *)
Definition generateImageFromPrompt
    (prompt : jsstring) (aspectRatio style negativePrompt : option jsstring)
  : IO jsstring :=
  let aspectRatio := defaultTo aspectRatio (lit "1:1") in
  let style := defaultTo style (lit "none") in
  let negativePrompt := defaultTo negativePrompt [] in
  let finalPrompt := composePrompt prompt style negativePrompt in
  response <- generateContent (imageRequest finalPrompt aspectRatio) ;;
  ofResult (scanParts (responseParts response)).

End WithEnv.
End GeminiService.

(** ** [App.tsx]: component state and event handlers *)

Module App.

Inductive Tab : Type := source | generated.

(** The [useState] cells of the component, in the order of declaration. *)
Record AppState : Type := mkState {
  file : option File;
  previewUrl : option jsstring;
  isDragging : bool;
  isGeneratingPrompt : bool;
  isGeneratingImage : bool;
  prompt : jsstring;
  generatedImage : option jsstring;
  copied : bool;
  error : option jsstring;
  activeTab : Tab;
  showAdvanced : bool;
  aspectRatio : jsstring;
  style : jsstring;
  negativePrompt : jsstring
}.

(** The state of the first render. *)
Definition initialState : AppState :=
  {| file := None; previewUrl := None; isDragging := false;
     isGeneratingPrompt := false; isGeneratingImage := false;
     prompt := []; generatedImage := None; copied := false;
     error := None; activeTab := source; showAdvanced := false;
     aspectRatio := lit "1:1"; style := lit "none";
     negativePrompt := [] |}.

(** Handlers may throw, change the component state and extend the log;
    the state and the log survive a throw. *)
Definition M (A : Type) : Type :=
  AppState -> list Effect -> result A * AppState * list Effect.

Definition M_ret {A} (a : A) : M A := fun s l => (Ok a, s, l).

Definition M_bind {A B} (m : M A) (k : A -> M B) : M B :=
  fun s l =>
    match m s l with
    | (Ok a, s', l') => k a s' l'
    | (Throw e, s', l') => (Throw e, s', l')
    end.

Definition M_raise {A} (e : exn) : M A := fun s l => (Throw e, s, l).

Definition M_catch {A} (m : M A) (h : exn -> M A) : M A :=
  fun s l =>
    match m s l with
    | (Ok a, s', l') => (Ok a, s', l')
    | (Throw e, s', l') => h e s' l'
    end.

#[global] Instance Monad_M : Monad M :=
  {| ret := @M_ret; bind := @M_bind |}.

#[global] Instance Exc_M : MonadExc exn M :=
  {| raise := @M_raise; catch := @M_catch |}.

(** [try { body } catch (err) { handler } finally { finalizer }]. *)
Definition tryCatchFinally {A} (body : M A) (handler : exn -> M A)
    (finalizer : M unit) : M A :=
  fun s l =>
    match catch body handler s l with
    | (r, s1, l1) =>
      match finalizer s1 l1 with
      | (Ok _, s2, l2) => (r, s2, l2)
      | (Throw e, s2, l2) => (Throw e, s2, l2)
      end
    end.

(** [await] of a service call. *)
Definition liftIO {A} (m : IO A) : M A :=
  fun s l => match m l with (r, l') => (r, s, l') end.

Definition perform (e : Effect) : M unit := fun s l => (Ok tt, s, l ++ [e]).

Definition modify (f : AppState -> AppState) : M unit :=
  fun s l => (Ok tt, f s, l).

(** Functional update of one cell of the state. *)
Definition withFile (v : option File) (s : AppState) : AppState :=
  mkState v (previewUrl s) (isDragging s) (isGeneratingPrompt s) (isGeneratingImage s)
    (prompt s) (generatedImage s) (copied s) (error s) (activeTab s)
    (showAdvanced s) (aspectRatio s) (style s) (negativePrompt s).

Definition withPreviewUrl (v : option jsstring) (s : AppState) : AppState :=
  mkState (file s) v (isDragging s) (isGeneratingPrompt s) (isGeneratingImage s)
    (prompt s) (generatedImage s) (copied s) (error s) (activeTab s)
    (showAdvanced s) (aspectRatio s) (style s) (negativePrompt s).

Definition withIsDragging (v : bool) (s : AppState) : AppState :=
  mkState (file s) (previewUrl s) v (isGeneratingPrompt s) (isGeneratingImage s)
    (prompt s) (generatedImage s) (copied s) (error s) (activeTab s)
    (showAdvanced s) (aspectRatio s) (style s) (negativePrompt s).

Definition withIsGeneratingPrompt (v : bool) (s : AppState) : AppState :=
  mkState (file s) (previewUrl s) (isDragging s) v (isGeneratingImage s)
    (prompt s) (generatedImage s) (copied s) (error s) (activeTab s)
    (showAdvanced s) (aspectRatio s) (style s) (negativePrompt s).

Definition withIsGeneratingImage (v : bool) (s : AppState) : AppState :=
  mkState (file s) (previewUrl s) (isDragging s) (isGeneratingPrompt s) v
    (prompt s) (generatedImage s) (copied s) (error s) (activeTab s)
    (showAdvanced s) (aspectRatio s) (style s) (negativePrompt s).

Definition withPrompt (v : jsstring) (s : AppState) : AppState :=
  mkState (file s) (previewUrl s) (isDragging s) (isGeneratingPrompt s) (isGeneratingImage s)
    v (generatedImage s) (copied s) (error s) (activeTab s)
    (showAdvanced s) (aspectRatio s) (style s) (negativePrompt s).

Definition withGeneratedImage (v : option jsstring) (s : AppState) : AppState :=
  mkState (file s) (previewUrl s) (isDragging s) (isGeneratingPrompt s) (isGeneratingImage s)
    (prompt s) v (copied s) (error s) (activeTab s)
    (showAdvanced s) (aspectRatio s) (style s) (negativePrompt s).

Definition withCopied (v : bool) (s : AppState) : AppState :=
  mkState (file s) (previewUrl s) (isDragging s) (isGeneratingPrompt s) (isGeneratingImage s)
    (prompt s) (generatedImage s) v (error s) (activeTab s)
    (showAdvanced s) (aspectRatio s) (style s) (negativePrompt s).

Definition withError (v : option jsstring) (s : AppState) : AppState :=
  mkState (file s) (previewUrl s) (isDragging s) (isGeneratingPrompt s) (isGeneratingImage s)
    (prompt s) (generatedImage s) (copied s) v (activeTab s)
    (showAdvanced s) (aspectRatio s) (style s) (negativePrompt s).

Definition withActiveTab (v : Tab) (s : AppState) : AppState :=
  mkState (file s) (previewUrl s) (isDragging s) (isGeneratingPrompt s) (isGeneratingImage s)
    (prompt s) (generatedImage s) (copied s) (error s) v
    (showAdvanced s) (aspectRatio s) (style s) (negativePrompt s).

Definition withShowAdvanced (v : bool) (s : AppState) : AppState :=
  mkState (file s) (previewUrl s) (isDragging s) (isGeneratingPrompt s) (isGeneratingImage s)
    (prompt s) (generatedImage s) (copied s) (error s) (activeTab s)
    v (aspectRatio s) (style s) (negativePrompt s).

Definition withAspectRatio (v : jsstring) (s : AppState) : AppState :=
  mkState (file s) (previewUrl s) (isDragging s) (isGeneratingPrompt s) (isGeneratingImage s)
    (prompt s) (generatedImage s) (copied s) (error s) (activeTab s)
    (showAdvanced s) v (style s) (negativePrompt s).

Definition withStyle (v : jsstring) (s : AppState) : AppState :=
  mkState (file s) (previewUrl s) (isDragging s) (isGeneratingPrompt s) (isGeneratingImage s)
    (prompt s) (generatedImage s) (copied s) (error s) (activeTab s)
    (showAdvanced s) (aspectRatio s) v (negativePrompt s).

Definition withNegativePrompt (v : jsstring) (s : AppState) : AppState :=
  mkState (file s) (previewUrl s) (isDragging s) (isGeneratingPrompt s) (isGeneratingImage s)
    (prompt s) (generatedImage s) (copied s) (error s) (activeTab s)
    (showAdvanced s) (aspectRatio s) (style s) v.

(** The state setters returned by [useState]. *)
Definition setFile (v : option File) : M unit := modify (withFile v).

Definition setPreviewUrl (v : option jsstring) : M unit := modify (withPreviewUrl v).

Definition setIsDragging (v : bool) : M unit := modify (withIsDragging v).

Definition setIsGeneratingPrompt (v : bool) : M unit := modify (withIsGeneratingPrompt v).

Definition setIsGeneratingImage (v : bool) : M unit := modify (withIsGeneratingImage v).

Definition setPrompt (v : jsstring) : M unit := modify (withPrompt v).

Definition setGeneratedImage (v : option jsstring) : M unit := modify (withGeneratedImage v).

Definition setCopied (v : bool) : M unit := modify (withCopied v).

Definition setError (v : option jsstring) : M unit := modify (withError v).

Definition setActiveTab (v : Tab) : M unit := modify (withActiveTab v).

Definition setShowAdvanced (v : bool) : M unit := modify (withShowAdvanced v).

Definition setAspectRatio (v : jsstring) : M unit := modify (withAspectRatio v).

Definition setStyle (v : jsstring) : M unit := modify (withStyle v).

Definition setNegativePrompt (v : jsstring) : M unit := modify (withNegativePrompt v).

(** The two conditions under which [processFile] accepts a file: the type
    test of line 44 and the size test of line 49. *)
Definition isMedia (f : File) : bool :=
  startsWith (type f) (lit "image/") || startsWith (type f) (lit "video/").

Definition maxFileSize : N := 15 * 1024 * 1024.

Definition tooLarge (f : File) : bool := maxFileSize <? size f.

(** A file that [processFile] accepts. *)
Definition accepted (f : File) : Prop :=
  isMedia f = true /\ tooLarge f = false.

Section WithEnv.

Variable env : Env.

(** [URL.createObjectURL(f)]. *)
Definition createObjectURL (f : File) : M jsstring :=
  fun s l => (Ok (objectURL env l f), s, l ++ [CreateObjectURL f]).

(** [await fileToBase64(f)]. *)
Definition fileToBase64 (f : File) : IO jsstring :=
  fun l => (readFileToBase64 env l f, l ++ [FileToBase64 f]).

Definition processFile (selectedFile : File) : M unit :=
  setError None ;;
  if negb (startsWith (type selectedFile) (lit "image/"))
     && negb (startsWith (type selectedFile) (lit "video/"))
  then setError (Some (lit "Please upload an image or video file."))
  else if 15 * 1024 * 1024 <? size selectedFile
  then setError
         (Some (lit "File size exceeds 15MB limit. Please choose a smaller file."))
  else
    setFile (Some selectedFile) ;;
    setActiveTab source ;;
    url <- createObjectURL selectedFile ;;
    setPreviewUrl (Some url).

(** [files && files[0]] of the two handlers that receive a [FileList]. *)
Definition firstFile (files : option (list File)) : option File :=
  match files with
  | Some fs => nth_error fs 0
  | None => None
  end.

Definition handleFileChange (files : option (list File)) : M unit :=
  match firstFile files with
  | Some f => processFile f
  | None => ret tt
  end.

Definition handleDragOver : M unit := setIsDragging true.

Definition handleDragLeave : M unit := setIsDragging false.

Definition handleDrop (files : option (list File)) : M unit :=
  setIsDragging false ;;
  match firstFile files with
  | Some f => processFile f
  | None => ret tt
  end.

(** A handler is a closure over the values of the render that created it:
    [r] is that render's state. *)
Definition handleGeneratePrompt (r : AppState) : M unit :=
  match file r with
  | None => ret tt
  | Some f =>
    setIsGeneratingPrompt true ;;
    setError None ;;
    tryCatchFinally
      (base64Data <- liftIO (fileToBase64 f) ;;
       generated <- liftIO
         (GeminiService.generatePromptFromMedia env (type f) base64Data) ;;
       setPrompt generated)
      (fun err =>
         perform (ConsoleError err) ;;
         setError (Some (lit "Failed to generate prompt. Please try again.")))
      (setIsGeneratingPrompt false)
  end.

Definition handleGenerateImage (r : AppState) : M unit :=
  if negb (truthy (trim (prompt r)))
  then setError (Some (lit "Please enter a prompt first."))
  else
    setIsGeneratingImage true ;;
    setError None ;;
    tryCatchFinally
      (imageUrl <- liftIO
         (GeminiService.generateImageFromPrompt env (prompt r)
            (Some (aspectRatio r)) (Some (style r))
            (Some (negativePrompt r))) ;;
       setGeneratedImage (Some imageUrl) ;;
       setActiveTab generated)
      (fun err =>
         perform (ConsoleError err) ;;
         setError (Some (lit "Failed to generate image. Please try again.")))
      (setIsGeneratingImage false).

Definition copyToClipboard (r : AppState) : M unit :=
  if truthy (prompt r)
  then
    perform (ClipboardWriteText (prompt r)) ;;
    setCopied true ;;
    perform (SetTimeout 2000)
  else ret tt.

Definition resetSource (r : AppState) : M unit :=
  setFile None ;;
  match previewUrl r with
  | Some u => if truthy u then perform (RevokeObjectURL u) else ret tt
  | None => ret tt
  end ;;
  setPreviewUrl None ;;
  setError None.

(** What the user, or a timer, can make the component do. *)
Inductive Action : Type :=
| FileChange (files : option (list File))
| DragOver
| DragLeave
| Drop (files : option (list File))
| ClickGeneratePrompt
| ClickGenerateImage
| ClickCopy
| CopiedTimeout
| ClickChange
| SelectTab (t : Tab)
| EditPrompt (v : jsstring)
| ToggleAdvanced
| SelectAspectRatio (v : jsstring)
| SelectStyle (v : jsstring)
| EditNegativePrompt (v : jsstring).

(** The handler bound to each action, closed over the current render. *)
Definition dispatch (a : Action) : M unit :=
  fun s =>
    match a with
    | FileChange files => handleFileChange files s
    | DragOver => handleDragOver s
    | DragLeave => handleDragLeave s
    | Drop files => handleDrop files s
    | ClickGeneratePrompt => handleGeneratePrompt s s
    | ClickGenerateImage => handleGenerateImage s s
    | ClickCopy => copyToClipboard s s
    | CopiedTimeout => setCopied false s
    | ClickChange => resetSource s s
    | SelectTab t => setActiveTab t s
    | EditPrompt v => setPrompt v s
    | ToggleAdvanced => setShowAdvanced (negb (showAdvanced s)) s
    | SelectAspectRatio v => setAspectRatio v s
    | SelectStyle v => setStyle v s
    | EditNegativePrompt v => setNegativePrompt v s
    end.

(** A session: actions handled one after the other. *)
Fixpoint runActions (acts : list Action) (s : AppState) (l : list Effect)
  : AppState * list Effect :=
  match acts with
  | [] => (s, l)
  | a :: rest =>
    match dispatch a s l with
    | (_, s', l') => runActions rest s' l'
    end
  end.

End WithEnv.
End App.

(** ** [App.tsx]: what the rendered component lets the user do *)

Module AppView.
Import App.

(** Line 12: the options of the aspect-ratio [select]. *)
Definition ASPECT_RATIOS : list jsstring :=
  [lit "1:1"; lit "3:4"; lit "4:3"; lit "9:16"; lit "16:9"].

(** Line 13: the options of the style [select]. *)
Definition STYLES : list jsstring :=
  [lit "none"; lit "Cinematic"; lit "Photographic"; lit "Anime";
   lit "Digital Art"; lit "3D Render"; lit "Comic Book"; lit "Fantasy Art";
   lit "Neon Punk"].

(** [l.includes(v)] on strings. *)
Definition includes (l : list jsstring) (v : jsstring) : bool :=
  existsb (Js.eqb v) l.

(** [!file]: a [File] object is truthy, [null] is not. *)
Definition noFile (s : AppState) : bool :=
  match file s with
  | Some _ => false
  | None => true
  end.

(** [activeTab === 'source']. *)
Definition onSourceTab (s : AppState) : bool :=
  match activeTab s with
  | source => true
  | generated => false
  end.

(** The object URLs that the state accounts for: the preview of the held
    file, if any. *)
Definition liveUrls (s : AppState) : nat :=
  if noFile s then 0%nat else 1%nat.

(** Line 265: [disabled={!file || isGeneratingPrompt}]. *)
Definition generatePromptDisabled (s : AppState) : bool :=
  noFile s || isGeneratingPrompt s.

(** Line 443: [disabled={!prompt.trim() || isGeneratingImage}]. *)
Definition generateImageDisabled (s : AppState) : bool :=
  negb (truthy (trim (prompt s))) || isGeneratingImage s.

(** Whether the element an action comes from is rendered and enabled in
    the render of state [s], and can produce the value of the action.  The
    drop zone and its file input are rendered on the source tab while no
    file is held (lines 202 to 219), the "Change" button on the source tab
    while a file is held (line 253), the button of [handleGeneratePrompt]
    on the source tab (lines 263 to 265); a [select] produces one of its
    options (lines 396 to 419).
    The elements that the component mounts with an exit animation are
    taken as always present. *)
Definition available (s : AppState) (a : Action) : bool :=
  match a with
  | FileChange _ | DragOver | DragLeave | Drop _ =>
      onSourceTab s && noFile s
  | ClickGeneratePrompt => onSourceTab s && negb (generatePromptDisabled s)
  | ClickChange => onSourceTab s && negb (noFile s)
  | ClickGenerateImage => negb (generateImageDisabled s)
  | SelectAspectRatio v => includes ASPECT_RATIOS v
  | SelectStyle v => includes STYLES v
  | ClickCopy | CopiedTimeout | SelectTab _ | EditPrompt _
  | ToggleAdvanced | EditNegativePrompt _ => true
  end.

(** The messages that the handlers pass to [setError]. *)
Definition errorMessages : list jsstring :=
  [lit "Please upload an image or video file.";
   lit "File size exceeds 15MB limit. Please choose a smaller file.";
   lit "Failed to generate prompt. Please try again.";
   lit "Please enter a prompt first.";
   lit "Failed to generate image. Please try again."].

(** Counting in the log and in a session. *)
Definition isRemoteCall (e : Effect) : bool :=
  match e with
  | GenerateContent _ => true
  | _ => false
  end.

Definition isCreateObjectURL (e : Effect) : bool :=
  match e with
  | CreateObjectURL _ => true
  | _ => false
  end.

Definition isRevokeObjectURL (e : Effect) : bool :=
  match e with
  | RevokeObjectURL _ => true
  | _ => false
  end.

Definition count (p : Effect -> bool) (l : list Effect) : nat :=
  List.length (filter p l).

Definition isGenerateClick (a : Action) : bool :=
  match a with
  | ClickGeneratePrompt | ClickGenerateImage => true
  | _ => false
  end.

Definition generateClicks (acts : list Action) : nat :=
  List.length (filter isGenerateClick acts).



Section WithEnv.

Variable env : Env.

(** A session in which every action is available when it happens. *)
Fixpoint admissible (acts : list Action) (s : AppState) (l : list Effect)
  : bool :=
  match acts with
  | [] => true
  | a :: rest =>
    available s a &&
    match dispatch env a s l with
    | (_, s', l') => admissible rest s' l'
    end
  end.

End WithEnv.
End AppView.


(** ** Sample data

    Concrete responses, environments and states on which the properties
    below are exercised. *)

Module Samples.

(** A response made of one candidate with the given parts. *)
Definition oneCandidate (ps : list Part) : GenerateContentResponse :=
  {| candidates := Some [ {| content := Some {| parts := Some ps |} |} ];
     responseText := None |}.

Definition jpegBlob : Blob :=
  {| mimeType := Some (lit "image/jpeg"); data := Some (lit "AAAA") |}.

Definition untypedBlob : Blob :=
  {| mimeType := None; data := Some (lit "BBBB") |}.

Definition inlinePart (b : Blob) : Part :=
  {| text := None; inlineData := Some b |}.

(** Text only: no image. *)
Definition textOnlyResponse : GenerateContentResponse :=
  oneCandidate [GeminiService.textPart (lit "Sorry, no image.")].

(** A text part, then two images. *)
Definition imageResponse : GenerateContentResponse :=
  oneCandidate [GeminiService.textPart (lit "Here it is.");
                inlinePart jpegBlob; inlinePart untypedBlob].

(** An image whose MIME type is omitted. *)
Definition untypedImageResponse : GenerateContentResponse :=
  oneCandidate [inlinePart untypedBlob].

(** The only image is in the second candidate. *)
Definition secondCandidateResponse : GenerateContentResponse :=
  {| candidates :=
       Some [ {| content := Some {| parts := Some [GeminiService.textPart (lit "first")] |} |};
              {| content := Some {| parts := Some [inlinePart jpegBlob] |} |} ];
     responseText := None |}.

(** A response of the describe call, with or without text. *)
Definition textResponse (t : option jsstring) : GenerateContentResponse :=
  {| candidates := None; responseText := t |}.

(** An environment whose remote model always answers [r]. *)
Definition constEnv (r : result GenerateContentResponse) : Env :=
  {| remoteGenerateContent := fun _ _ => r;
     readFileToBase64 := fun _ _ => Ok (lit "QUJD");
     objectURL := fun _ _ => lit "blob:preview" |}.

Definition networkError : exn :=
  {| name := lit "TypeError"; message := lit "Failed to fetch" |}.

Definition textFile : File :=
  {| fileName := lit "notes.txt"; type := lit "text/plain"; size := 12 |}.

Definition hugeVideo : File :=
  {| fileName := lit "clip.mp4"; type := lit "video/mp4";
     size := 15 * 1024 * 1024 + 1 |}.

Definition photo : File :=
  {| fileName := lit "photo.jpg"; type := lit "image/jpeg";
     size := 2 * 1024 * 1024 |}.

(** An environment with a failing file reader. *)
Definition unreadableEnv : Env :=
  {| remoteGenerateContent := fun _ _ => Ok imageResponse;
     readFileToBase64 :=
       fun _ _ => Throw {| name := lit "Error"; message := lit "read failed" |};
     objectURL := fun _ _ => lit "blob:preview" |}.

(** An environment whose model describes and draws: it answers a request
    that carries an image configuration with an image, any other with the
    text [t]. *)
Definition studioEnv (t : option jsstring) : Env :=
  {| remoteGenerateContent :=
       fun _ req =>
         match imageConfig req with
         | Some _ => Ok imageResponse
         | None => Ok (textResponse t)
         end;
     readFileToBase64 := fun _ _ => Ok (lit "QUJD");
     objectURL := fun _ _ => lit "blob:preview" |}.

(** An image whose MIME type is the empty string, and one without data. *)
Definition emptyTypeBlob : Blob :=
  {| mimeType := Some []; data := Some (lit "CCCC") |}.

Definition noDataBlob : Blob :=
  {| mimeType := Some (lit "image/webp"); data := None |}.

End Samples.


(** * Properties *)

(** ** Facts about the string operations *)

Module JsFacts.

Lemma eqb_refl (a : jsstring) : Js.eqb a a = true.
Proof.
  induction a as [|x a IH]; simpl; [reflexivity|].
  rewrite N.eqb_refl. exact IH.
Qed.

Lemma eqb_eq (a b : jsstring) : Js.eqb a b = true <-> a = b.
Proof.
  split.
  - revert b. induction a as [|x a IH]; intros [|y b] H; simpl in H;
      try discriminate; [reflexivity|].
    apply andb_true_iff in H. destruct H as [Hxy Hab].
    apply N.eqb_eq in Hxy. apply IH in Hab. congruence.
  - intros ->. apply eqb_refl.
Qed.

Lemma eqb_neq (a b : jsstring) : Js.eqb a b = false <-> a <> b.
Proof.
  rewrite <- eqb_eq. destruct (Js.eqb a b); split; congruence.
Qed.

Lemma truthy_true (s : jsstring) : truthy s = true <-> s <> [].
Proof. destruct s; simpl; split; congruence. Qed.

Lemma truthy_false (s : jsstring) : truthy s = false <-> s = [].
Proof. destruct s; simpl; split; congruence. Qed.

Lemma startsWith_app (p t : jsstring) : startsWith (p ++ t) p = true.
Proof.
  induction p as [|y p IH]; simpl; [reflexivity|].
  rewrite N.eqb_refl. exact IH.
Qed.

Lemma startsWith_prefix (s p : jsstring) :
  startsWith s p = true <-> exists t, s = p ++ t.
Proof.
  split.
  - revert s. induction p as [|y p IH]; intros s H.
    + exists s. reflexivity.
    + destruct s as [|x s]; simpl in H; [discriminate|].
      apply andb_true_iff in H. destruct H as [Hxy Hs].
      apply N.eqb_eq in Hxy. destruct (IH _ Hs) as [t ->].
      exists t. simpl. congruence.
  - intros [t ->]. apply startsWith_app.
Qed.

(** [trimStart] leaves nothing exactly when every code unit is white space. *)
Lemma trimStart_nil (s : jsstring) :
  trimStart s = [] <-> forallb isWhiteSpace s = true.
Proof.
  induction s as [|c s IH]; simpl.
  - split; reflexivity.
  - destruct (isWhiteSpace c); simpl; [exact IH|].
    split; discriminate.
Qed.

(** What [trimStart] returns is a suffix of its argument. *)
Lemma trimStart_suffix (s : jsstring) :
  exists ws, s = ws ++ trimStart s /\ forallb isWhiteSpace ws = true.
Proof.
  induction s as [|c s IH]; simpl.
  - exists []. split; reflexivity.
  - destruct (isWhiteSpace c) eqn:Hc.
    + destruct IH as [ws [Hs Hws]]. exists (c :: ws). simpl.
      rewrite Hc, Hws. split; [congruence|reflexivity].
    + exists []. split; reflexivity.
Qed.

(** The first code unit of a non-empty [trimStart] is not white space. *)
Lemma trimStart_head (s : jsstring) c t :
  trimStart s = c :: t -> isWhiteSpace c = false.
Proof.
  induction s as [|d s IH]; simpl; [discriminate|].
  destruct (isWhiteSpace d) eqn:Hd; [exact IH|].
  intros H. injection H as -> _. exact Hd.
Qed.

Lemma forallb_rev (f : N -> bool) (s : jsstring) :
  forallb f (rev s) = forallb f s.
Proof.
  induction s as [|c s IH]; simpl; [reflexivity|].
  rewrite forallb_app, IH. simpl. rewrite andb_true_r. apply andb_comm.
Qed.

(** A prompt is blank, that is empty or made of white space only, exactly
    when its trimmed form is the empty string. *)
Lemma trim_nil (s : jsstring) :
  trim s = [] <-> forallb isWhiteSpace s = true.
Proof.
  unfold trim, trimEnd. split.
  - intros H. apply trimStart_nil.
    destruct (trimStart s) as [|c t] eqn:E; [reflexivity|].
    exfalso.
    assert (Hr : trimStart (rev (c :: t)) = []).
    { apply (f_equal (@rev N)) in H. rewrite rev_involutive in H. exact H. }
    apply trimStart_nil in Hr. rewrite forallb_rev in Hr. simpl in Hr.
    rewrite (trimStart_head s c t E) in Hr. discriminate.
  - intros H. apply trimStart_nil in H. rewrite H. reflexivity.
Qed.

End JsFacts.

(** ** The generation client *)

Module GeminiServiceSpec.
Import GeminiService.

Section WithEnv.

Variable env : Env.

(** The request that [generateImageFromPrompt] builds from its arguments. *)
Local Abbreviation requestOf p a s n :=
  (imageRequest
     (composePrompt p (defaultTo s (lit "none")) (defaultTo n []))
     (defaultTo a (lit "1:1"))).

(** One run of the synthesize operation: one remote call, then the scan of
    the answer. *)
Lemma generateImageFromPrompt_run p a s n l :
  generateImageFromPrompt env p a s n l =
    (match remoteGenerateContent env l (requestOf p a s n) with
     | Ok resp => scanParts (responseParts resp)
     | Throw e => Throw e
     end,
     l ++ [GenerateContent (requestOf p a s n)]).
Proof.
  unfold generateImageFromPrompt, generateContent, ofResult.
  unfold bind, Monad_IO, IO_bind.
  destruct (remoteGenerateContent env l (requestOf p a s n)); reflexivity.
Qed.

(** One run of the describe operation. *)
Lemma generatePromptFromMedia_run m d l :
  generatePromptFromMedia env m d l =
    (match remoteGenerateContent env l (describeRequest m d) with
     | Ok resp =>
         Ok (orElse (responseText resp) (lit "Failed to generate prompt."))
     | Throw e => Throw e
     end,
     l ++ [GenerateContent (describeRequest m d)]).
Proof.
  unfold generatePromptFromMedia, generateContent.
  unfold bind, ret, Monad_IO, IO_bind, IO_ret.
  destruct (remoteGenerateContent env l (describeRequest m d)); reflexivity.
Qed.

(** The scan throws when no part carries inline data. *)
Lemma scanParts_none ps :
  Forall (fun part => inlineData part = None) ps ->
  scanParts ps = Throw (Error (lit "No image generated")).
Proof.
  induction 1 as [|part rest Hp _ IH]; simpl; [reflexivity|].
  rewrite Hp. exact IH.
Qed.

(** The scan stops at the first part that carries inline data. *)
Lemma scanParts_first pre part post b :
  Forall (fun q => inlineData q = None) pre ->
  inlineData part = Some b ->
  scanParts (pre ++ part :: post) = Ok (dataUri b).
Proof.
  intros Hpre Hb. induction Hpre as [|q pre Hq _ IH]; simpl.
  - rewrite Hb. reflexivity.
  - rewrite Hq. exact IH.
Qed.

(** C1: the text sent by the synthesize operation is the prompt unchanged
    when the style is "none" and the negative prompt is empty; the prompt
    followed by a new line and "Style: <style>" when the style is not
    "none"; and, after that, a new line and "Negative prompt: <text>" when
    the negative prompt is not empty. *)
Theorem synthesize_composed_text (p a s n : jsstring) (l : list Effect) :
  snd (generateImageFromPrompt env p (Some a) (Some s) (Some n) l)
    = l ++ [GenerateContent (imageRequest (composePrompt p s n) a)]
  /\ contents (imageRequest (composePrompt p s n) a)
       = [textPart (composePrompt p s n)]
  /\ (s = lit "none" -> n = [] -> composePrompt p s n = p)
  /\ (s <> lit "none" -> n = [] ->
      composePrompt p s n = p ++ LF ++ lit "Style: " ++ s)
  /\ (s = lit "none" -> n <> [] ->
      composePrompt p s n = p ++ LF ++ lit "Negative prompt: " ++ n)
  /\ (s <> lit "none" -> n <> [] ->
      composePrompt p s n
        = (p ++ LF ++ lit "Style: " ++ s)
            ++ LF ++ lit "Negative prompt: " ++ n).
Proof.
  split; [rewrite generateImageFromPrompt_run; reflexivity|].
  split; [reflexivity|].
  unfold composePrompt.
  repeat split; intros Hs Hn.
  - subst. reflexivity.
  - apply JsFacts.eqb_neq in Hs. rewrite Hs. subst n. reflexivity.
  - apply JsFacts.truthy_true in Hn. rewrite Hn. subst s. reflexivity.
  - apply JsFacts.eqb_neq in Hs. apply JsFacts.truthy_true in Hn.
    rewrite Hs, Hn. reflexivity.
Qed.

(** C2: when the answer has no part with inline data, the synthesize
    operation throws the error "No image generated" and returns no string. *)
Theorem no_inline_data_raises p a s n l resp :
  remoteGenerateContent env l (requestOf p a s n) = Ok resp ->
  Forall (fun part => inlineData part = None) (responseParts resp) ->
  fst (generateImageFromPrompt env p a s n l)
    = Throw (Error (lit "No image generated"))
  /\ forall uri, fst (generateImageFromPrompt env p a s n l) <> Ok uri.
Proof.
  intros Hresp Hnone.
  rewrite generateImageFromPrompt_run, Hresp. cbn [fst].
  rewrite (scanParts_none _ Hnone). split; [reflexivity|discriminate].
Qed.

(** C3: the describe operation returns the literal "Failed to generate
    prompt." when the text of the answer is absent or empty, and the text
    itself when it is not empty; it does not throw in either case. *)
Theorem describe_fallback m d l resp :
  remoteGenerateContent env l (describeRequest m d) = Ok resp ->
  (responseText resp = None \/ responseText resp = Some [] ->
   fst (generatePromptFromMedia env m d l)
     = Ok (lit "Failed to generate prompt."))
  /\ (forall t, responseText resp = Some t -> t <> [] ->
      fst (generatePromptFromMedia env m d l) = Ok t).
Proof.
  intros Hresp. rewrite generatePromptFromMedia_run, Hresp. cbn [fst]. split.
  - intros [H|H]; rewrite H; reflexivity.
  - intros t Ht Hne. rewrite Ht. simpl.
    apply JsFacts.truthy_true in Hne. rewrite Hne. reflexivity.
Qed.

(** C4: when some part of the answer carries inline data, the synthesize
    operation returns the data URI built from the first such part, in the
    order of the parts: "data:", its MIME type (or "image/png"), ";base64,"
    and its data; a part with both a MIME type and data gives
    "data:<mimeType>;base64,<data>". *)
Theorem first_inline_part_returned p a s n l resp pre part post b :
  remoteGenerateContent env l (requestOf p a s n) = Ok resp ->
  responseParts resp = pre ++ part :: post ->
  Forall (fun q => inlineData q = None) pre ->
  inlineData part = Some b ->
  fst (generateImageFromPrompt env p a s n l)
    = Ok (lit "data:" ++ orElse (mimeType b) (lit "image/png")
            ++ lit ";base64," ++ interpolate (data b))
  /\ (forall mt dt, mimeType b = Some mt -> mt <> [] -> data b = Some dt ->
      fst (generateImageFromPrompt env p a s n l)
        = Ok (lit "data:" ++ mt ++ lit ";base64," ++ dt)).
Proof.
  intros Hresp Hparts Hpre Hb.
  rewrite generateImageFromPrompt_run, Hresp. cbn [fst].
  rewrite Hparts, (scanParts_first pre part post b Hpre Hb). unfold dataUri.
  split; [reflexivity|].
  intros mt dt Hm Hne Hd. rewrite Hm, Hd. simpl.
  apply JsFacts.truthy_true in Hne. rewrite Hne. reflexivity.
Qed.

(** C5: when the first part with inline data has no MIME type, the string
    returned begins with "data:image/png;base64,". *)
Theorem omitted_mime_type_is_png p a s n l resp pre part post b :
  remoteGenerateContent env l (requestOf p a s n) = Ok resp ->
  responseParts resp = pre ++ part :: post ->
  Forall (fun q => inlineData q = None) pre ->
  inlineData part = Some b ->
  mimeType b = None ->
  exists uri,
    fst (generateImageFromPrompt env p a s n l) = Ok uri
    /\ uri = lit "data:image/png;base64," ++ interpolate (data b)
    /\ startsWith uri (lit "data:image/png;base64,") = true.
Proof.
  intros Hresp Hparts Hpre Hb Hm.
  rewrite generateImageFromPrompt_run, Hresp. cbn [fst].
  rewrite Hparts, (scanParts_first pre part post b Hpre Hb). unfold dataUri.
  rewrite Hm. simpl orElse.
  exists (lit "data:image/png;base64," ++ interpolate (data b)).
  split; [reflexivity|]. split; [reflexivity|].
  apply JsFacts.startsWith_app.
Qed.

(** C9: only the parts of the first candidate are inspected.  The outcome
    is that of the answer cut down to its first candidate; an answer with no
    candidate list, no candidate, no content or no parts is the no-image
    case, not a crash; and so is an answer whose first candidate has no
    inline data, whatever the later candidates carry. *)
Theorem only_first_candidate_inspected p a s n l resp :
  remoteGenerateContent env l (requestOf p a s n) = Ok resp ->
  (forall c rest, candidates resp = Some (c :: rest) ->
     fst (generateImageFromPrompt env p a s n l)
       = scanParts (responseParts (mkResponse (Some [c]) None)))
  /\ (candidates resp = None \/ candidates resp = Some []
      \/ (exists c rest, candidates resp = Some (c :: rest) /\
            (content c = None
             \/ exists ct, content c = Some ct /\
                  (parts ct = None
                   \/ exists ps, parts ct = Some ps /\
                        Forall (fun q => inlineData q = None) ps))) ->
      fst (generateImageFromPrompt env p a s n l)
        = Throw (Error (lit "No image generated"))).
Proof.
  intros Hresp. rewrite generateImageFromPrompt_run, Hresp. cbn [fst].
  unfold responseParts. split.
  - intros c rest Hc. rewrite Hc. reflexivity.
  - intros [H|[H|[c [rest [H Hc]]]]]; rewrite H; try reflexivity.
    cbn [nth_error].
    destruct Hc as [Hc|[ct [Hc Hct]]]; rewrite Hc; [reflexivity|].
    destruct Hct as [Hp|[ps [Hp Hps]]]; rewrite Hp; [reflexivity|].
    apply scanParts_none. exact Hps.
Qed.

End WithEnv.

(** *** The properties above on the sample data *)

Import Samples.

(** The end-to-end scenario of the specification: style "Photographic",
    no negative prompt. *)
Example composePrompt_photographic :
  composePrompt (lit "A golden retriever") (lit "Photographic") []
    = lit "A golden retriever" ++ LF ++ lit "Style: Photographic".
Proof. reflexivity. Qed.

Example composePrompt_plain :
  composePrompt (lit "A golden retriever") (lit "none") []
    = lit "A golden retriever".
Proof. reflexivity. Qed.

(** A crash of the remote call is passed on as it is. *)
Example synthesize_network_error :
  generateImageFromPrompt (constEnv (Throw networkError))
    (lit "a fox") None None None []
    = (Throw networkError,
       [GenerateContent (imageRequest (lit "a fox") (lit "1:1"))]).
Proof. reflexivity. Qed.

Lemma synthesize_composed_text_witness :
  composePrompt (lit "a fox") (lit "Cinematic") (lit "blurry")
    = (lit "a fox" ++ LF ++ lit "Style: " ++ lit "Cinematic")
        ++ LF ++ lit "Negative prompt: " ++ lit "blurry".
Proof.
  apply (synthesize_composed_text (constEnv (Ok imageResponse))
           (lit "a fox") (lit "16:9") (lit "Cinematic") (lit "blurry") []);
    discriminate.
Defined.

Lemma no_inline_data_raises_witness :
  fst (generateImageFromPrompt (constEnv (Ok textOnlyResponse))
         (lit "a fox") None None None [])
    = Throw (Error (lit "No image generated"))
  /\ forall uri,
       fst (generateImageFromPrompt (constEnv (Ok textOnlyResponse))
              (lit "a fox") None None None []) <> Ok uri.
Proof.
  apply (no_inline_data_raises (constEnv (Ok textOnlyResponse))
           (lit "a fox") None None None [] textOnlyResponse).
  - reflexivity.
  - repeat constructor.
Defined.

Lemma describe_fallback_witness :
  fst (generatePromptFromMedia (constEnv (Ok (textResponse (Some []))))
         (lit "image/jpeg") (lit "QUJD") [])
    = Ok (lit "Failed to generate prompt.")
  /\ fst (generatePromptFromMedia
            (constEnv (Ok (textResponse (Some (lit "A golden retriever")))))
            (lit "image/jpeg") (lit "QUJD") [])
       = Ok (lit "A golden retriever").
Proof.
  split.
  - refine (proj1 (describe_fallback (constEnv (Ok (textResponse (Some []))))
                     (lit "image/jpeg") (lit "QUJD") []
                     (textResponse (Some [])) _) _).
    + reflexivity.
    + right. reflexivity.
  - refine (proj2 (describe_fallback
                     (constEnv (Ok (textResponse (Some (lit "A golden retriever")))))
                     (lit "image/jpeg") (lit "QUJD") []
                     (textResponse (Some (lit "A golden retriever"))) _)
                  (lit "A golden retriever") _ _).
    + reflexivity.
    + reflexivity.
    + discriminate.
Defined.

Lemma first_inline_part_returned_witness :
  fst (generateImageFromPrompt (constEnv (Ok imageResponse))
         (lit "a fox") None None None [])
    = Ok (lit "data:image/jpeg;base64,AAAA").
Proof.
  apply (first_inline_part_returned (constEnv (Ok imageResponse))
           (lit "a fox") None None None [] imageResponse
           [textPart (lit "Here it is.")] (inlinePart jpegBlob)
           [inlinePart untypedBlob] jpegBlob).
  - reflexivity.
  - reflexivity.
  - repeat constructor.
  - reflexivity.
Defined.

Lemma omitted_mime_type_is_png_witness :
  exists uri,
    fst (generateImageFromPrompt (constEnv (Ok untypedImageResponse))
           (lit "a fox") None None None []) = Ok uri
    /\ uri = lit "data:image/png;base64," ++ lit "BBBB"
    /\ startsWith uri (lit "data:image/png;base64,") = true.
Proof.
  apply (omitted_mime_type_is_png (constEnv (Ok untypedImageResponse))
           (lit "a fox") None None None [] untypedImageResponse
           [] (inlinePart untypedBlob) [] untypedBlob).
  - reflexivity.
  - reflexivity.
  - constructor.
  - reflexivity.
  - reflexivity.
Defined.

Lemma only_first_candidate_inspected_witness :
  fst (generateImageFromPrompt (constEnv (Ok secondCandidateResponse))
         (lit "a fox") None None None [])
    = Throw (Error (lit "No image generated")).
Proof.
  apply (only_first_candidate_inspected (constEnv (Ok secondCandidateResponse))
           (lit "a fox") None None None [] secondCandidateResponse).
  - reflexivity.
  - right. right.
    exists {| content := Some {| parts := Some [textPart (lit "first")] |} |}.
    exists [ {| content := Some {| parts := Some [inlinePart jpegBlob] |} |} ].
    split; [reflexivity|]. right.
    exists {| parts := Some [textPart (lit "first")] |}.
    split; [reflexivity|]. right.
    exists [textPart (lit "first")].
    split; [reflexivity | repeat constructor].
Defined.

End GeminiServiceSpec.

(** ** The component *)

Module AppSpec.
Import GeminiService App.

Section WithEnv.

Variable env : Env.

(** The synthesize call that the handler of a render [r] makes. *)
Local Abbreviation synthesize r :=
  (generateImageFromPrompt env (prompt r) (Some (aspectRatio r))
     (Some (style r)) (Some (negativePrompt r))).

Local Abbreviation synthesizeRequest r :=
  (imageRequest (composePrompt (prompt r) (style r) (negativePrompt r))
     (aspectRatio r)).

(** A blank prompt stops [handleGenerateImage] at its first test. *)
Lemma handleGenerateImage_blank r s l :
  trim (prompt r) = [] ->
  handleGenerateImage env r s l
    = (Ok tt, withError (Some (lit "Please enter a prompt first.")) s, l).
Proof.
  intros H. unfold handleGenerateImage. rewrite H. reflexivity.
Qed.

(** Any other prompt starts the operation; the handler ends normally in
    both outcomes of the call. *)
Lemma handleGenerateImage_started r s l :
  trim (prompt r) <> [] ->
  handleGenerateImage env r s l =
    match fst (synthesize r l) with
    | Ok imageUrl =>
        (Ok tt,
         withIsGeneratingImage false
           (withActiveTab generated
              (withGeneratedImage (Some imageUrl)
                 (withError None (withIsGeneratingImage true s)))),
         l ++ [GenerateContent (synthesizeRequest r)])
    | Throw err =>
        (Ok tt,
         withIsGeneratingImage false
           (withError (Some (lit "Failed to generate image. Please try again."))
              (withError None (withIsGeneratingImage true s))),
         (l ++ [GenerateContent (synthesizeRequest r)]) ++ [ConsoleError err])
    end.
Proof.
  intros H. apply JsFacts.truthy_true in H.
  unfold handleGenerateImage. rewrite H. cbn [negb].
  rewrite GeminiServiceSpec.generateImageFromPrompt_run.
  unfold tryCatchFinally, liftIO, perform, modify.
  unfold catch, Exc_M, M_catch, bind, Monad_M, M_bind.
  cbn [setIsGeneratingImage setError setGeneratedImage setActiveTab modify].
  unfold modify.
  rewrite GeminiServiceSpec.generateImageFromPrompt_run.
  cbn [defaultTo fst].
  destruct (remoteGenerateContent env l (synthesizeRequest r)) as [resp|e];
    [destruct (scanParts (responseParts resp))|]; reflexivity.
Qed.

(** One run of [processFile]: the two rejections and the acceptance. *)
Lemma processFile_run f s l :
  processFile env f s l =
    if negb (isMedia f)
    then (Ok tt, withError (Some (lit "Please upload an image or video file.")) s, l)
    else if tooLarge f
    then (Ok tt,
          withError
            (Some (lit "File size exceeds 15MB limit. Please choose a smaller file."))
            s,
          l)
    else (Ok tt,
          withPreviewUrl (Some (objectURL env l f))
            (withActiveTab source (withFile (Some f) (withError None s))),
          l ++ [CreateObjectURL f]).
Proof.
  unfold processFile, isMedia, tooLarge, maxFileSize.
  rewrite negb_orb.
  destruct (negb (startsWith (type f) (lit "image/"))
            && negb (startsWith (type f) (lit "video/"))); [reflexivity|].
  destruct (15 * 1024 * 1024 <? size f); reflexivity.
Qed.

(** One run of [handleGeneratePrompt] when a file is held: the file is
    encoded first, and the handler ends normally whatever happens. *)
Lemma handleGeneratePrompt_run r f s l :
  file r = Some f ->
  exists s' rest,
    handleGeneratePrompt env r s l = (Ok tt, s', l ++ FileToBase64 f :: rest)
    /\ file s' = file s
    /\ (forall g, ~ In (FileToBase64 g) rest).
Proof.
  intros Hf. unfold handleGeneratePrompt. rewrite Hf.
  unfold tryCatchFinally, liftIO, perform, fileToBase64.
  unfold catch, Exc_M, M_catch, bind, Monad_M, M_bind.
  cbn [setIsGeneratingPrompt setError setPrompt modify].
  unfold modify.
  destruct (readFileToBase64 env l f) as [d|e].
  - rewrite GeminiServiceSpec.generatePromptFromMedia_run.
    destruct (remoteGenerateContent env (l ++ [FileToBase64 f])
                (describeRequest (type f) d)) as [resp|e].
    + eexists. exists [GenerateContent (describeRequest (type f) d)].
      rewrite <- app_assoc. split; [reflexivity|]. split; [reflexivity|].
      intros g [H|[]]. discriminate.
    + eexists.
      exists [GenerateContent (describeRequest (type f) d); ConsoleError e].
      rewrite <- !app_assoc. split; [reflexivity|]. split; [reflexivity|].
      intros g [H|[H|[]]]; discriminate.
  - eexists. exists [ConsoleError e].
    rewrite <- app_assoc. split; [reflexivity|]. split; [reflexivity|].
    intros g [H|[]]. discriminate.
Qed.

(** The two rejections of [processFile] are the complement of [accepted]. *)
Lemma rejected_not_accepted f :
  isMedia f = false \/ tooLarge f = true -> ~ accepted f.
Proof. intros [H|H] [H1 H2]; congruence. Qed.

(** [processFile] stores a file only when it accepts it, and encodes
    nothing. *)
Lemma processFile_step g s l :
  exists s' l',
    processFile env g s l = (Ok tt, s', l')
    /\ (file s' = file s \/ (file s' = Some g /\ accepted g))
    /\ (forall f, In (FileToBase64 f) l' -> In (FileToBase64 f) l).
Proof.
  rewrite processFile_run.
  destruct (isMedia g) eqn:Hm; cbn [negb];
    [destruct (tooLarge g) eqn:Hs|].
  - eexists. eexists. split; [reflexivity|]. split; [left; reflexivity|auto].
  - eexists. eexists. split; [reflexivity|].
    split; [right; split; [reflexivity|split; assumption]|].
    intros f Hin. apply in_app_or in Hin. destruct Hin as [H|[H|[]]];
      [exact H|discriminate].
  - eexists. eexists. split; [reflexivity|]. split; [left; reflexivity|auto].
Qed.

(** One action keeps a rejected file out of the state and out of the
    encoder. *)
Lemma dispatch_keeps_out f a s l :
  ~ accepted f ->
  file s <> Some f ->
  ~ In (FileToBase64 f) l ->
  file (snd (fst (dispatch env a s l))) <> Some f
  /\ ~ In (FileToBase64 f) (snd (dispatch env a s l)).
Proof.
  intros Hrej Hs Hl.
  assert (Hpf : forall g s0,
            file s0 <> Some f ->
            file (snd (fst (processFile env g s0 l))) <> Some f
            /\ ~ In (FileToBase64 f) (snd (processFile env g s0 l))).
  { intros g s0 Hs0.
    destruct (processFile_step g s0 l) as [s' [l' [E [Hfile Hlog]]]].
    rewrite E. cbn [fst snd]. split.
    - destruct Hfile as [H|[H Hacc]]; rewrite H; [exact Hs0|].
      intros Heq. injection Heq as ->. exact (Hrej Hacc).
    - intros Hin. exact (Hl (Hlog f Hin)). }
  destruct a; cbn [dispatch]; try (split; [exact Hs|exact Hl]).
  - unfold handleFileChange. destruct (firstFile files) as [g|].
    + apply Hpf. exact Hs.
    + split; [exact Hs|exact Hl].
  - unfold handleDrop, bind, Monad_M, M_bind. cbn [setIsDragging modify].
    unfold modify. destruct (firstFile files) as [g|].
    + apply Hpf. exact Hs.
    + split; [exact Hs|exact Hl].
  - destruct (file s) as [g|] eqn:Hg.
    + destruct (handleGeneratePrompt_run s g s l Hg) as [s' [rest [E [Hf Hr]]]].
      rewrite E. cbn [fst snd]. split.
      * rewrite Hf, Hg. congruence.
      * intros Hin. apply in_app_or in Hin. destruct Hin as [H|[H|H]].
        -- exact (Hl H).
        -- injection H as ->. congruence.
        -- exact (Hr f H).
    + unfold handleGeneratePrompt. rewrite Hg.
      split; [change (file s <> Some f); rewrite Hg; discriminate|exact Hl].
  - destruct (list_eq_dec N.eq_dec (trim (prompt s)) []) as [Hb|Hb].
    + rewrite (handleGenerateImage_blank s s l Hb). split; [exact Hs|exact Hl].
    + rewrite (handleGenerateImage_started s s l Hb).
      destruct (fst (generateImageFromPrompt env (prompt s)
                       (Some (aspectRatio s)) (Some (style s))
                       (Some (negativePrompt s)) l)); cbn [fst snd];
        (split; [exact Hs|]); intros Hin;
        repeat (apply in_app_or in Hin; destruct Hin as [Hin|Hin]);
        try exact (Hl Hin);
        repeat (destruct Hin as [Hin|Hin]; try discriminate); exact Hin.
  - unfold copyToClipboard. destruct (truthy (prompt s)).
    + cbn. split; [exact Hs|]. intros Hin.
      repeat (apply in_app_or in Hin; destruct Hin as [Hin|Hin]);
        try exact (Hl Hin);
        repeat (destruct Hin as [Hin|Hin]; try discriminate); exact Hin.
    + split; [exact Hs|exact Hl].
  - unfold resetSource. destruct (previewUrl s) as [u|]; [destruct (truthy u)|];
      cbn; (split; [discriminate|]); try exact Hl.
    intros Hin. apply in_app_or in Hin. destruct Hin as [Hin|[Hin|[]]];
      [exact (Hl Hin)|discriminate].
Qed.

(** A session keeps a rejected file out of the state and out of the
    encoder. *)
Lemma runActions_keeps_out f acts : forall s l,
  ~ accepted f ->
  file s <> Some f ->
  ~ In (FileToBase64 f) l ->
  file (fst (runActions env acts s l)) <> Some f
  /\ ~ In (FileToBase64 f) (snd (runActions env acts s l)).
Proof.
  induction acts as [|a acts IH]; intros s l Hrej Hs Hl; cbn [runActions].
  - split; assumption.
  - destruct (dispatch_keeps_out f a s l Hrej Hs Hl) as [Hs' Hl'].
    destruct (dispatch env a s l) as [[r s'] l']. cbn [fst snd] in Hs', Hl'.
    apply IH; assumption.
Qed.

(** C6: a file whose type starts with neither "image/" nor "video/", or
    whose size exceeds 15 * 1024 * 1024 bytes, is answered by a validation
    message: [processFile] sets the message, leaves the held file as it was
    and performs no effect at all; and in no session started from the first
    render does such a file reach the state or the encoder. *)
Theorem rejected_file_never_encoded f :
  isMedia f = false \/ tooLarge f = true ->
  (forall s l,
     processFile env f s l
       = (Ok tt,
          withError
            (Some (if isMedia f
                   then lit "File size exceeds 15MB limit. Please choose a smaller file."
                   else lit "Please upload an image or video file."))
            s,
          l)
     /\ file (snd (fst (processFile env f s l))) = file s
     /\ snd (processFile env f s l) = l)
  /\ (forall acts,
        file (fst (runActions env acts initialState [])) <> Some f
        /\ ~ In (FileToBase64 f) (snd (runActions env acts initialState []))).
Proof.
  intros Hrej. split.
  - intros s l. rewrite processFile_run.
    destruct (isMedia f) eqn:Hm; cbn [negb].
    + destruct Hrej as [H|H]; [discriminate|]. rewrite H.
      repeat split; reflexivity.
    + repeat split; reflexivity.
  - intros acts. apply runActions_keeps_out.
    + apply rejected_not_accepted. exact Hrej.
    + discriminate.
    + intros [].
Qed.

(** C7: with a prompt that is empty or made of white space only,
    [handleGenerateImage] sets the validation message and does nothing
    else: the log of effects is unchanged, so no synthesize call is made. *)
Theorem blank_prompt_not_synthesized r s l :
  forallb isWhiteSpace (prompt r) = true ->
  handleGenerateImage env r s l
    = (Ok tt, withError (Some (lit "Please enter a prompt first.")) s, l)
  /\ error (snd (fst (handleGenerateImage env r s l)))
       = Some (lit "Please enter a prompt first.")
  /\ snd (handleGenerateImage env r s l) = l.
Proof.
  intros H. apply JsFacts.trim_nil in H.
  rewrite (handleGenerateImage_blank r s l H). repeat split; reflexivity.
Qed.

(** C8: when the synthesize operation throws, [handleGenerateImage] leaves
    the generated image and the active tab as they were; the state after
    the handler is the state before it with the error message set and the
    busy flag cleared, which is the state before it with the error message
    set when no generation was running. *)
Theorem failed_synthesis_keeps_image r s l err :
  trim (prompt r) <> [] ->
  fst (synthesize r l) = Throw err ->
  handleGenerateImage env r s l
    = (Ok tt,
       withIsGeneratingImage false
         (withError (Some (lit "Failed to generate image. Please try again.")) s),
       l ++ [GenerateContent (synthesizeRequest r); ConsoleError err])
  /\ generatedImage (snd (fst (handleGenerateImage env r s l)))
       = generatedImage s
  /\ activeTab (snd (fst (handleGenerateImage env r s l))) = activeTab s
  /\ (isGeneratingImage s = false ->
      snd (fst (handleGenerateImage env r s l))
        = withError (Some (lit "Failed to generate image. Please try again.")) s).
Proof.
  intros Hp Herr. rewrite (handleGenerateImage_started r s l Hp), Herr.
  rewrite <- app_assoc. cbn [app fst snd].
  split; [reflexivity|]. split; [reflexivity|]. split; [reflexivity|].
  intros Hidle. destruct s. cbn in Hidle. subst. reflexivity.
Qed.

(** C10: when the trimmed prompt is not empty, [handleGenerateImage] makes
    exactly one remote call, and the text of that call begins with the
    prompt as typed, white space included: it is the prompt followed by the
    style and negative-prompt lines. *)
Theorem prompt_sent_untrimmed r s l :
  trim (prompt r) <> [] ->
  exists suffix rest,
    snd (handleGenerateImage env r s l)
      = l ++ GenerateContent (imageRequest (prompt r ++ suffix) (aspectRatio r))
             :: rest
    /\ contents (imageRequest (prompt r ++ suffix) (aspectRatio r))
         = [textPart (prompt r ++ suffix)]
    /\ prompt r ++ suffix
         = composePrompt (prompt r) (style r) (negativePrompt r)
    /\ (forall req, ~ In (GenerateContent req) rest).
Proof.
  intros Hp.
  exists ((if negb (Js.eqb (style r) (lit "none"))
           then LF ++ lit "Style: " ++ style r else [])
          ++ (if truthy (negativePrompt r)
              then LF ++ lit "Negative prompt: " ++ negativePrompt r else [])).
  assert (Hc : prompt r
                 ++ (if negb (Js.eqb (style r) (lit "none"))
                     then LF ++ lit "Style: " ++ style r else [])
                 ++ (if truthy (negativePrompt r)
                     then LF ++ lit "Negative prompt: " ++ negativePrompt r
                     else [])
               = composePrompt (prompt r) (style r) (negativePrompt r)).
  { unfold composePrompt.
    destruct (negb (Js.eqb (style r) (lit "none")));
      destruct (truthy (negativePrompt r));
      cbn [app]; rewrite ?app_nil_r, <- ?app_assoc; reflexivity. }
  rewrite Hc. rewrite (handleGenerateImage_started r s l Hp).
  destruct (fst (synthesize r l)) as [url|e]; cbn [fst snd].
  - exists []. repeat split. intros req [].
  - exists [ConsoleError e]. rewrite <- app_assoc. repeat split.
    intros req [H|[]]. discriminate.
Qed.

End WithEnv.

(** *** The properties above on the sample data *)

Import Samples.

(** An accepted file is stored, previewed, then encoded and described. *)
Example session_with_photo :
  runActions (constEnv (Ok (textResponse (Some (lit "A golden retriever")))))
    [FileChange (Some [photo]); ClickGeneratePrompt] initialState []
    = (withPrompt (lit "A golden retriever")
         (withPreviewUrl (Some (lit "blob:preview"))
            (withFile (Some photo) initialState)),
       [CreateObjectURL photo; FileToBase64 photo;
        GenerateContent (describeRequest (lit "image/jpeg") (lit "QUJD"))]).
Proof. reflexivity. Qed.

Example trim_keeps_inner_space :
  trim (lit "  a fox  ") = lit "a fox".
Proof. reflexivity. Qed.

Lemma rejected_file_never_encoded_witness :
  processFile (constEnv (Ok imageResponse)) textFile initialState []
    = (Ok tt,
       withError (Some (lit "Please upload an image or video file."))
         initialState,
       [])
  /\ ~ In (FileToBase64 hugeVideo)
         (snd (runActions (constEnv (Ok imageResponse))
                 [Drop (Some [hugeVideo]); ClickGeneratePrompt]
                 initialState [])).
Proof.
  split.
  - apply (proj1 (rejected_file_never_encoded (constEnv (Ok imageResponse))
                    textFile (or_introl eq_refl))
                 initialState []).
  - apply (proj2 (rejected_file_never_encoded (constEnv (Ok imageResponse))
                    hugeVideo (or_intror eq_refl))
                 [Drop (Some [hugeVideo]); ClickGeneratePrompt]).
Defined.

Lemma blank_prompt_not_synthesized_witness :
  snd (handleGenerateImage (constEnv (Ok imageResponse))
         (withPrompt [32; 10; 9; 160] initialState)
         (withPrompt [32; 10; 9; 160] initialState) [])
    = [].
Proof.
  apply (blank_prompt_not_synthesized (constEnv (Ok imageResponse))
           (withPrompt [32; 10; 9; 160] initialState)
           (withPrompt [32; 10; 9; 160] initialState) []).
  reflexivity.
Defined.

(** A state that already shows an image. *)
Lemma failed_synthesis_keeps_image_witness :
  generatedImage
    (snd (fst (handleGenerateImage (constEnv (Throw networkError))
                 (withGeneratedImage (Some (lit "data:image/png;base64,OLD"))
                    (withPrompt (lit "a fox") initialState))
                 (withGeneratedImage (Some (lit "data:image/png;base64,OLD"))
                    (withPrompt (lit "a fox") initialState))
                 [])))
    = Some (lit "data:image/png;base64,OLD").
Proof.
  apply (failed_synthesis_keeps_image (constEnv (Throw networkError))
           (withGeneratedImage (Some (lit "data:image/png;base64,OLD"))
              (withPrompt (lit "a fox") initialState))
           (withGeneratedImage (Some (lit "data:image/png;base64,OLD"))
              (withPrompt (lit "a fox") initialState))
           [] networkError).
  - discriminate.
  - reflexivity.
Defined.

Lemma prompt_sent_untrimmed_witness :
  exists suffix rest,
    snd (handleGenerateImage (constEnv (Ok imageResponse))
           (withPrompt (lit "  a fox  ") initialState)
           (withPrompt (lit "  a fox  ") initialState) [])
      = [] ++ GenerateContent
                (imageRequest (lit "  a fox  " ++ suffix) (lit "1:1")) :: rest
    /\ contents (imageRequest (lit "  a fox  " ++ suffix) (lit "1:1"))
         = [textPart (lit "  a fox  " ++ suffix)]
    /\ lit "  a fox  " ++ suffix
         = composePrompt (lit "  a fox  ") (lit "none") []
    /\ (forall req, ~ In (GenerateContent req) rest).
Proof.
  apply (prompt_sent_untrimmed (constEnv (Ok imageResponse))
           (withPrompt (lit "  a fox  ") initialState)
           (withPrompt (lit "  a fox  ") initialState) []).
  discriminate.
Defined.

End AppSpec.


(** ** More on the generation client *)

Module GeminiServiceExtra.
Import GeminiService.

Section WithEnv.

Variable env : Env.

Local Abbreviation requestOf p a s n :=
  (imageRequest
     (composePrompt p (defaultTo s (lit "none")) (defaultTo n []))
     (defaultTo a (lit "1:1"))).

(** A scan that returns a string stopped at a part with inline data, and
    no part before it had any. *)
Lemma scanParts_ok ps uri :
  scanParts ps = Ok uri ->
  exists pre part post b,
    ps = pre ++ part :: post
    /\ Forall (fun q => inlineData q = None) pre
    /\ inlineData part = Some b
    /\ uri = dataUri b.
Proof.
  induction ps as [|q ps IH]; simpl; [discriminate|].
  destruct (inlineData q) as [b|] eqn:Hq.
  - intros H. injection H as <-.
    exists [], q, ps, b. repeat split; [constructor|exact Hq].
  - intros H. destruct (IH H) as [pre [part [post [b [E [Hpre [Hb Hu]]]]]]].
    exists (q :: pre), part, post, b. subst ps.
    repeat split; [constructor; assumption|exact Hb|exact Hu].
Qed.

(** A text that grows by a non-empty suffix is another text. *)
Lemma app_neq_self (p x : jsstring) : x <> [] -> p ++ x <> p.
Proof.
  intros Hx H. apply (f_equal (@List.length N)) in H.
  rewrite List.length_app in H. destruct x; [congruence|simpl in H; lia].
Qed.

(** X1: each of the two operations makes exactly one remote call, whatever
    the outcome, and an error thrown by that call is thrown on unchanged. *)
Theorem one_call_and_failures_propagate m d p a s n l :
  snd (generatePromptFromMedia env m d l)
    = l ++ [GenerateContent (describeRequest m d)]
  /\ snd (generateImageFromPrompt env p a s n l)
       = l ++ [GenerateContent (requestOf p a s n)]
  /\ (forall e,
        remoteGenerateContent env l (describeRequest m d) = Throw e ->
        fst (generatePromptFromMedia env m d l) = Throw e)
  /\ (forall e,
        remoteGenerateContent env l (requestOf p a s n) = Throw e ->
        fst (generateImageFromPrompt env p a s n l) = Throw e).
Proof.
  rewrite GeminiServiceSpec.generatePromptFromMedia_run.
  rewrite GeminiServiceSpec.generateImageFromPrompt_run. cbn [fst snd].
  repeat split; intros e He; rewrite He; reflexivity.
Qed.

(** X2: the synthesize operation returns a string only when the call
    answered and some part of the first candidate carries inline data; the
    string is then the data URI of the first such part and begins with
    "data:". *)
Theorem synthesize_ok_only_from_inline_part p a s n l uri :
  fst (generateImageFromPrompt env p a s n l) = Ok uri ->
  exists resp pre part post b,
    remoteGenerateContent env l (requestOf p a s n) = Ok resp
    /\ responseParts resp = pre ++ part :: post
    /\ Forall (fun q => inlineData q = None) pre
    /\ inlineData part = Some b
    /\ uri = dataUri b
    /\ startsWith uri (lit "data:") = true.
Proof.
  rewrite GeminiServiceSpec.generateImageFromPrompt_run. cbn [fst].
  destruct (remoteGenerateContent env l (requestOf p a s n)) as [resp|e];
    [|discriminate].
  intros H. destruct (scanParts_ok _ _ H) as [pre [part [post [b [E [Hpre [Hb Hu]]]]]]].
  exists resp, pre, part, post, b. repeat split; try assumption.
  subst uri. unfold dataUri. apply JsFacts.startsWith_app.
Qed.

(** X3: with the three optional arguments left out, the operation behaves
    as with aspect ratio "1:1", style "none" and an empty negative prompt:
    the text sent is the prompt itself. *)
Theorem synthesize_defaults p l :
  generateImageFromPrompt env p None None None l
    = generateImageFromPrompt env p (Some (lit "1:1")) (Some (lit "none"))
        (Some []) l
  /\ snd (generateImageFromPrompt env p None None None l)
       = l ++ [GenerateContent
                 {| model := lit "gemini-2.5-flash-image";
                    contents := [textPart p];
                    imageConfig := Some (lit "1:1") |}].
Proof.
  split; [reflexivity|].
  rewrite GeminiServiceSpec.generateImageFromPrompt_run. reflexivity.
Qed.

(** X4: a MIME type that is present but empty is replaced by "image/png"
    like an absent one. *)
Theorem empty_mime_type_is_png p a s n l resp pre part post b :
  remoteGenerateContent env l (requestOf p a s n) = Ok resp ->
  responseParts resp = pre ++ part :: post ->
  Forall (fun q => inlineData q = None) pre ->
  inlineData part = Some b ->
  mimeType b = Some [] ->
  fst (generateImageFromPrompt env p a s n l)
    = Ok (lit "data:image/png;base64," ++ interpolate (data b)).
Proof.
  intros Hresp Hparts Hpre Hb Hm.
  rewrite GeminiServiceSpec.generateImageFromPrompt_run, Hresp. cbn [fst].
  rewrite Hparts, (GeminiServiceSpec.scanParts_first pre part post b Hpre Hb).
  unfold dataUri. rewrite Hm. reflexivity.
Qed.

(** X5: inline data without a [data] field is not an error: the string
    returned ends with the text "undefined" after ";base64,". *)
Theorem absent_data_is_undefined p a s n l resp pre part post b :
  remoteGenerateContent env l (requestOf p a s n) = Ok resp ->
  responseParts resp = pre ++ part :: post ->
  Forall (fun q => inlineData q = None) pre ->
  inlineData part = Some b ->
  data b = None ->
  fst (generateImageFromPrompt env p a s n l)
    = Ok (lit "data:" ++ orElse (mimeType b) (lit "image/png")
            ++ lit ";base64,undefined").
Proof.
  intros Hresp Hparts Hpre Hb Hd.
  rewrite GeminiServiceSpec.generateImageFromPrompt_run, Hresp. cbn [fst].
  rewrite Hparts, (GeminiServiceSpec.scanParts_first pre part post b Hpre Hb).
  unfold dataUri. rewrite Hd. reflexivity.
Qed.

(** X6: the text sent is the prompt itself exactly when the style is
    "none" and the negative prompt is empty; any other style, and any
    non-empty negative prompt, changes it. *)
Theorem prompt_unchanged_iff p s n :
  composePrompt p s n = p <-> s = lit "none" /\ n = [].
Proof.
  unfold composePrompt. split.
  - destruct (Js.eqb s (lit "none")) eqn:Hs; cbn [negb];
      destruct n as [|c n']; cbn [truthy]; intros H.
    + split; [apply JsFacts.eqb_eq; exact Hs|reflexivity].
    + exfalso. revert H. apply app_neq_self. discriminate.
    + exfalso. revert H. apply app_neq_self. discriminate.
    + exfalso. revert H. rewrite <- app_assoc. apply app_neq_self.
      discriminate.
  - intros [-> ->]. reflexivity.
Qed.

End WithEnv.

Import Samples.

Lemma synthesize_ok_only_from_inline_part_witness :
  exists resp pre part post b,
    remoteGenerateContent (constEnv (Ok imageResponse)) []
      (imageRequest (lit "a fox") (lit "1:1")) = Ok resp
    /\ responseParts resp = pre ++ part :: post
    /\ Forall (fun q => inlineData q = None) pre
    /\ inlineData part = Some b
    /\ lit "data:image/jpeg;base64,AAAA" = dataUri b
    /\ startsWith (lit "data:image/jpeg;base64,AAAA") (lit "data:") = true.
Proof.
  apply (synthesize_ok_only_from_inline_part (constEnv (Ok imageResponse))
           (lit "a fox") None None None []
           (lit "data:image/jpeg;base64,AAAA")).
  reflexivity.
Defined.

Lemma one_call_and_failures_propagate_witness :
  fst (generatePromptFromMedia (constEnv (Throw networkError))
         (lit "image/jpeg") (lit "QUJD") []) = Throw networkError
  /\ fst (generateImageFromPrompt (constEnv (Throw networkError))
            (lit "a fox") None None None []) = Throw networkError.
Proof.
  split.
  - refine (proj1 (proj2 (proj2
      (one_call_and_failures_propagate (constEnv (Throw networkError))
         (lit "image/jpeg") (lit "QUJD") (lit "a fox") None None None [])))
      networkError _).
    reflexivity.
  - refine (proj2 (proj2 (proj2
      (one_call_and_failures_propagate (constEnv (Throw networkError))
         (lit "image/jpeg") (lit "QUJD") (lit "a fox") None None None [])))
      networkError _).
    reflexivity.
Defined.

Lemma empty_mime_type_is_png_witness :
  fst (generateImageFromPrompt
         (constEnv (Ok (oneCandidate [inlinePart emptyTypeBlob])))
         (lit "a fox") None None None [])
    = Ok (lit "data:image/png;base64," ++ lit "CCCC").
Proof.
  apply (empty_mime_type_is_png
           (constEnv (Ok (oneCandidate [inlinePart emptyTypeBlob])))
           (lit "a fox") None None None []
           (oneCandidate [inlinePart emptyTypeBlob])
           [] (inlinePart emptyTypeBlob) [] emptyTypeBlob).
  - reflexivity.
  - reflexivity.
  - constructor.
  - reflexivity.
  - reflexivity.
Defined.

Lemma absent_data_is_undefined_witness :
  fst (generateImageFromPrompt
         (constEnv (Ok (oneCandidate [inlinePart noDataBlob])))
         (lit "a fox") None None None [])
    = Ok (lit "data:image/webp;base64,undefined").
Proof.
  apply (absent_data_is_undefined
           (constEnv (Ok (oneCandidate [inlinePart noDataBlob])))
           (lit "a fox") None None None []
           (oneCandidate [inlinePart noDataBlob])
           [] (inlinePart noDataBlob) [] noDataBlob).
  - reflexivity.
  - reflexivity.
  - constructor.
  - reflexivity.
  - reflexivity.
Defined.

Lemma prompt_unchanged_iff_witness :
  composePrompt (lit "a fox") (lit "none") [] = lit "a fox".
Proof.
  apply (proj2 (prompt_unchanged_iff (lit "a fox") (lit "none") [])).
  split; reflexivity.
Defined.

End GeminiServiceExtra.

(** ** More on the component *)

Module AppExtra.
Import GeminiService App AppView.

Section WithEnv.

Variable env : Env.

Local Abbreviation synthesize r :=
  (generateImageFromPrompt env (prompt r) (Some (aspectRatio r))
     (Some (style r)) (Some (negativePrompt r))).

Local Abbreviation synthesizeRequest r :=
  (imageRequest (composePrompt (prompt r) (style r) (negativePrompt r))
     (aspectRatio r)).

Local Abbreviation promptFailed :=
  (lit "Failed to generate prompt. Please try again.").

Local Abbreviation imageFailed :=
  (lit "Failed to generate image. Please try again.").

(** *** One run of each handler *)

(** [handleGeneratePrompt] with a file held: the three ways it can go. *)
Lemma handleGeneratePrompt_started r f s l :
  file r = Some f ->
  handleGeneratePrompt env r s l =
    match readFileToBase64 env l f with
    | Throw err =>
        (Ok tt,
         withIsGeneratingPrompt false
           (withError (Some promptFailed)
              (withError None (withIsGeneratingPrompt true s))),
         (l ++ [FileToBase64 f]) ++ [ConsoleError err])
    | Ok base64Data =>
        match remoteGenerateContent env (l ++ [FileToBase64 f])
                (describeRequest (type f) base64Data) with
        | Throw err =>
            (Ok tt,
             withIsGeneratingPrompt false
               (withError (Some promptFailed)
                  (withError None (withIsGeneratingPrompt true s))),
             ((l ++ [FileToBase64 f])
                ++ [GenerateContent (describeRequest (type f) base64Data)])
               ++ [ConsoleError err])
        | Ok response =>
            (Ok tt,
             withIsGeneratingPrompt false
               (withPrompt
                  (orElse (responseText response)
                     (lit "Failed to generate prompt."))
                  (withError None (withIsGeneratingPrompt true s))),
             (l ++ [FileToBase64 f])
               ++ [GenerateContent (describeRequest (type f) base64Data)])
        end
    end.
Proof.
  intros Hf. unfold handleGeneratePrompt. rewrite Hf.
  unfold tryCatchFinally, liftIO, perform, fileToBase64.
  unfold catch, Exc_M, M_catch, bind, Monad_M, M_bind.
  cbn [setIsGeneratingPrompt setError setPrompt modify].
  unfold modify.
  destruct (readFileToBase64 env l f) as [d|e]; [|reflexivity].
  rewrite GeminiServiceSpec.generatePromptFromMedia_run.
  destruct (remoteGenerateContent env (l ++ [FileToBase64 f])
              (describeRequest (type f) d)); reflexivity.
Qed.

Lemma handleGeneratePrompt_idle r s l :
  file r = None -> handleGeneratePrompt env r s l = (Ok tt, s, l).
Proof. intros Hf. unfold handleGeneratePrompt. rewrite Hf. reflexivity. Qed.

Lemma handleFileChange_run files s l :
  handleFileChange env files s l =
    match firstFile files with
    | Some f => processFile env f s l
    | None => (Ok tt, s, l)
    end.
Proof. unfold handleFileChange. destruct (firstFile files); reflexivity. Qed.

Lemma handleDrop_run files s l :
  handleDrop env files s l =
    match firstFile files with
    | Some f => processFile env f (withIsDragging false s) l
    | None => (Ok tt, withIsDragging false s, l)
    end.
Proof. unfold handleDrop. destruct (firstFile files); reflexivity. Qed.

Lemma copyToClipboard_run r s l :
  copyToClipboard r s l =
    if truthy (prompt r)
    then (Ok tt, withCopied true s,
          (l ++ [ClipboardWriteText (prompt r)]) ++ [SetTimeout 2000])
    else (Ok tt, s, l).
Proof. unfold copyToClipboard. destruct (truthy (prompt r)); reflexivity. Qed.

Lemma resetSource_run r s l :
  resetSource r s l =
    (Ok tt,
     withError None (withPreviewUrl None (withFile None s)),
     match previewUrl r with
     | Some u => if truthy u then l ++ [RevokeObjectURL u] else l
     | None => l
     end).
Proof.
  unfold resetSource.
  destruct (previewUrl r) as [u|]; [destruct (truthy u)|]; reflexivity.
Qed.

(** [handleGenerateImage], all cases in one equation. *)
Lemma handleGenerateImage_run r s l :
  handleGenerateImage env r s l =
    if truthy (trim (prompt r))
    then
      match remoteGenerateContent env l (synthesizeRequest r) with
      | Ok resp =>
          match scanParts (responseParts resp) with
          | Ok imageUrl =>
              (Ok tt,
               withIsGeneratingImage false
                 (withActiveTab generated
                    (withGeneratedImage (Some imageUrl)
                       (withError None (withIsGeneratingImage true s)))),
               l ++ [GenerateContent (synthesizeRequest r)])
          | Throw err =>
              (Ok tt,
               withIsGeneratingImage false
                 (withError (Some imageFailed)
                    (withError None (withIsGeneratingImage true s))),
               (l ++ [GenerateContent (synthesizeRequest r)])
                 ++ [ConsoleError err])
          end
      | Throw err =>
          (Ok tt,
           withIsGeneratingImage false
             (withError (Some imageFailed)
                (withError None (withIsGeneratingImage true s))),
           (l ++ [GenerateContent (synthesizeRequest r)])
             ++ [ConsoleError err])
      end
    else (Ok tt, withError (Some (lit "Please enter a prompt first.")) s, l).
Proof.
  destruct (truthy (trim (prompt r))) eqn:Ht.
  - rewrite (AppSpec.handleGenerateImage_started env r s l
               (proj1 (JsFacts.truthy_true _) Ht)).
    rewrite GeminiServiceSpec.generateImageFromPrompt_run. cbn [fst defaultTo].
    destruct (remoteGenerateContent env l (synthesizeRequest r)) as [resp|e];
      [destruct (scanParts (responseParts resp))|]; reflexivity.
  - apply AppSpec.handleGenerateImage_blank.
    apply JsFacts.truthy_false. exact Ht.
Qed.

(** A property kept by every action is kept by every session. *)
Lemma runActions_invariant (P : AppState -> list Effect -> Prop) :
  (forall a s l,
     P s l ->
     P (snd (fst (dispatch env a s l))) (snd (dispatch env a s l))) ->
  forall acts s l,
    P s l ->
    P (fst (runActions env acts s l)) (snd (runActions env acts s l)).
Proof.
  intros Hstep. induction acts as [|a acts IH]; intros s l H;
    cbn [runActions]; [exact H|].
  specialize (Hstep a s l H).
  destruct (dispatch env a s l) as [[r s'] l']. apply IH. exact Hstep.
Qed.

(** The same for the sessions that the rendered component allows. *)
Lemma admissible_invariant (P : AppState -> list Effect -> Prop) :
  (forall a s l,
     available s a = true ->
     P s l ->
     P (snd (fst (dispatch env a s l))) (snd (dispatch env a s l))) ->
  forall acts s l,
    admissible env acts s l = true ->
    P s l ->
    P (fst (runActions env acts s l)) (snd (runActions env acts s l)).
Proof.
  intros Hstep. induction acts as [|a acts IH]; intros s l Hadm H;
    cbn [runActions]; [exact H|].
  cbn [admissible] in Hadm. apply andb_true_iff in Hadm.
  destruct Hadm as [Ha Hrest].
  specialize (Hstep a s l Ha H).
  destruct (dispatch env a s l) as [[r s'] l']. apply IH; assumption.
Qed.

(** Case analysis on the scrutinee of a [match] or [if] of the goal. *)
Ltac break_match :=
  repeat match goal with
         | |- context [match ?x with _ => _ end] => destruct x eqn:?
         end.

(** Run [dispatch] on each action, down to the outcomes of the oracles. *)
Ltac run_dispatch a s :=
  destruct a;
  cbn [dispatch isGenerateClick available];
  unfold handleDragOver, handleDragLeave, setIsDragging, setCopied,
    setActiveTab, setPrompt, setShowAdvanced, setAspectRatio, setStyle,
    setNegativePrompt, modify;
  rewrite ?handleFileChange_run, ?handleDrop_run, ?copyToClipboard_run, ?resetSource_run, ?handleGenerateImage_run;
  try match goal with
      | |- context [handleGeneratePrompt _ s s _] =>
          let f := fresh "f" in
          let Hf := fresh "Hf" in
          destruct (file s) as [f|] eqn:Hf;
          [rewrite (handleGeneratePrompt_started s f s _ Hf)
          |rewrite (handleGeneratePrompt_idle s s _ Hf)]
      end.

(** Then case analysis down to the answers of the oracles. *)
Ltac run_oracles :=
  repeat first [ progress break_match
               | progress rewrite ?AppSpec.processFile_run ].

(** *** Single handlers *)

(** X7: a file of type image or video and of at most 15 * 1024 * 1024
    bytes is accepted: it becomes the held file, an object URL is created
    for it and stored as the preview, the source tab is shown and any
    earlier error message is cleared. *)
Theorem accepted_file_is_held f s l :
  accepted f ->
  processFile env f s l
    = (Ok tt,
       withPreviewUrl (Some (objectURL env l f))
         (withActiveTab source (withFile (Some f) (withError None s))),
       l ++ [CreateObjectURL f])
  /\ file (snd (fst (processFile env f s l))) = Some f
  /\ previewUrl (snd (fst (processFile env f s l)))
       = Some (objectURL env l f)
  /\ error (snd (fst (processFile env f s l))) = None
  /\ activeTab (snd (fst (processFile env f s l))) = source.
Proof.
  intros [Hm Hs]. rewrite AppSpec.processFile_run, Hm, Hs. cbn [negb].
  repeat split; reflexivity.
Qed.

(** X8: of the files of a selection or of a drop only the first one is
    processed; with no file at all the selection changes nothing, not even
    an error message on display, and the drop only ends the dragging. *)
Theorem only_first_file_is_processed s l :
  (forall f rest,
     handleFileChange env (Some (f :: rest)) s l = processFile env f s l
     /\ handleDrop env (Some (f :: rest)) s l
          = processFile env f (withIsDragging false s) l)
  /\ (forall files,
        files = None \/ files = Some [] ->
        handleFileChange env files s l = (Ok tt, s, l)
        /\ handleDrop env files s l = (Ok tt, withIsDragging false s, l)).
Proof.
  split.
  - intros f rest. rewrite handleFileChange_run, handleDrop_run.
    split; reflexivity.
  - intros files [->| ->]; rewrite handleFileChange_run, handleDrop_run;
      split; reflexivity.
Qed.

(** X9: when the file is read and the describe call answers,
    [handleGeneratePrompt] puts the returned string into the prompt,
    clears the error and the busy flag, and has made one encoding and one
    remote call, in that order, the call carrying the type of the file and
    the encoded data; an answer without text puts the literal "Failed to
    generate prompt." into the prompt and sets no error. *)
Theorem describe_result_becomes_prompt r f s l base64Data resp :
  file r = Some f ->
  readFileToBase64 env l f = Ok base64Data ->
  remoteGenerateContent env (l ++ [FileToBase64 f])
    (describeRequest (type f) base64Data) = Ok resp ->
  handleGeneratePrompt env r s l
    = (Ok tt,
       withIsGeneratingPrompt false
         (withPrompt
            (orElse (responseText resp) (lit "Failed to generate prompt."))
            (withError None s)),
       l ++ [FileToBase64 f;
             GenerateContent (describeRequest (type f) base64Data)])
  /\ (responseText resp = None \/ responseText resp = Some [] ->
      prompt (snd (fst (handleGeneratePrompt env r s l)))
        = lit "Failed to generate prompt."
      /\ error (snd (fst (handleGeneratePrompt env r s l))) = None).
Proof.
  intros Hf Hd Hresp.
  rewrite (handleGeneratePrompt_started r f s l Hf), Hd, Hresp.
  rewrite <- app_assoc. cbn [app fst snd].
  split; [reflexivity|].
  intros [H|H]; rewrite H; split; reflexivity.
Qed.

(** X10: when reading the file fails, [handleGeneratePrompt] makes no
    remote call: it logs the error to the console, sets "Failed to generate
    prompt. Please try again.", clears the busy flag and leaves the prompt
    as it was. *)
Theorem encode_failure_makes_no_call r f s l err :
  file r = Some f ->
  readFileToBase64 env l f = Throw err ->
  handleGeneratePrompt env r s l
    = (Ok tt,
       withIsGeneratingPrompt false (withError (Some promptFailed) s),
       l ++ [FileToBase64 f; ConsoleError err])
  /\ prompt (snd (fst (handleGeneratePrompt env r s l))) = prompt s
  /\ count isRemoteCall (snd (handleGeneratePrompt env r s l))
       = count isRemoteCall l.
Proof.
  intros Hf Hd.
  rewrite (handleGeneratePrompt_started r f s l Hf), Hd.
  rewrite <- app_assoc. cbn [app fst snd].
  split; [reflexivity|]. split; [reflexivity|].
  unfold count. rewrite filter_app. cbn. rewrite app_nil_r. reflexivity.
Qed.

(** X11: when the describe call throws, [handleGeneratePrompt] ends
    normally: the error goes to the console, the message "Failed to generate
    prompt. Please try again." is set, the busy flag is cleared and the
    prompt is left as it was. *)
Theorem describe_failure_keeps_prompt r f s l base64Data err :
  file r = Some f ->
  readFileToBase64 env l f = Ok base64Data ->
  remoteGenerateContent env (l ++ [FileToBase64 f])
    (describeRequest (type f) base64Data) = Throw err ->
  handleGeneratePrompt env r s l
    = (Ok tt,
       withIsGeneratingPrompt false (withError (Some promptFailed) s),
       l ++ [FileToBase64 f;
             GenerateContent (describeRequest (type f) base64Data);
             ConsoleError err])
  /\ prompt (snd (fst (handleGeneratePrompt env r s l))) = prompt s.
Proof.
  intros Hf Hd Hresp.
  rewrite (handleGeneratePrompt_started r f s l Hf), Hd, Hresp.
  rewrite <- !app_assoc. cbn [app fst snd].
  split; reflexivity.
Qed.

(** X12: when the synthesize operation returns a string,
    [handleGenerateImage] stores it as the generated image, shows the
    generated tab, clears the error and the busy flag, and has made one
    remote call carrying the prompt, style, negative prompt and aspect ratio
    of the render. *)
Theorem successful_synthesis_shows_image r s l imageUrl :
  trim (prompt r) <> [] ->
  fst (synthesize r l) = Ok imageUrl ->
  handleGenerateImage env r s l
    = (Ok tt,
       withIsGeneratingImage false
         (withActiveTab generated
            (withGeneratedImage (Some imageUrl) (withError None s))),
       l ++ [GenerateContent (synthesizeRequest r)])
  /\ generatedImage (snd (fst (handleGenerateImage env r s l)))
       = Some imageUrl
  /\ activeTab (snd (fst (handleGenerateImage env r s l))) = generated
  /\ error (snd (fst (handleGenerateImage env r s l))) = None.
Proof.
  intros Hp Hok.
  rewrite (AppSpec.handleGenerateImage_started env r s l Hp), Hok.
  repeat split; reflexivity.
Qed.


(** X14: accepting a file and then pressing "Change" creates one object
    URL and revokes that same URL, and leaves no file, no preview and no
    error message. *)
Theorem reset_revokes_created_url f s l :
  accepted f ->
  objectURL env l f <> [] ->
  runActions env [FileChange (Some [f]); ClickChange] s l
    = (withActiveTab source
         (withError None (withPreviewUrl None (withFile None s))),
       l ++ [CreateObjectURL f; RevokeObjectURL (objectURL env l f)]).
Proof.
  intros [Hm Hs] Hu. apply JsFacts.truthy_true in Hu.
  cbn [runActions dispatch].
  rewrite handleFileChange_run. cbn [firstFile nth_error].
  rewrite AppSpec.processFile_run, Hm, Hs. cbn [negb].
  rewrite resetSource_run. cbn [previewUrl withPreviewUrl]. rewrite Hu.
  rewrite <- app_assoc. reflexivity.
Qed.

(** *** Sessions *)

(** Reduce the projections of an updated state. *)
Ltac simpl_state :=
  cbn [fst snd file previewUrl isDragging isGeneratingPrompt
       isGeneratingImage prompt generatedImage copied error activeTab
       showAdvanced aspectRatio style negativePrompt
       withFile withPreviewUrl withIsDragging withIsGeneratingPrompt
       withIsGeneratingImage withPrompt withGeneratedImage withCopied
       withError withActiveTab withShowAdvanced withAspectRatio withStyle
       withNegativePrompt].

(** X15: in every session the preview URL is set exactly when a file is
    held, so the preview of a held file always has a source. *)
Theorem preview_follows_file acts s l :
  (file s = None <-> previewUrl s = None) ->
  file (fst (runActions env acts s l)) = None
  <-> previewUrl (fst (runActions env acts s l)) = None.
Proof.
  apply (runActions_invariant
           (fun s _ => file s = None <-> previewUrl s = None)).
  clear. intros a s l H.
  run_dispatch a s; run_oracles; simpl_state;
    first [exact H | intuition congruence].
Qed.

(** X16: in every session the error on display is absent or one of the
    five messages of the handlers; the text of a thrown error is never
    shown. *)
Theorem error_is_a_known_message acts s l :
  (forall m, error s = Some m -> In m errorMessages) ->
  forall m,
    error (fst (runActions env acts s l)) = Some m -> In m errorMessages.
Proof.
  apply (runActions_invariant
           (fun s _ => forall m, error s = Some m -> In m errorMessages)).
  clear. intros a s l H.
  run_dispatch a s; run_oracles; simpl_state;
    first [ exact H
          | intros m E; discriminate E
          | intros m E; injection E as <-; unfold errorMessages;
            cbn [In]; auto 10 ].
Qed.

(** One action adds at most one remote call, and none unless it is one of
    the two generate buttons. *)
Lemma dispatch_remote_calls a s l :
  (count isRemoteCall (snd (dispatch env a s l))
   <= count isRemoteCall l + (if isGenerateClick a then 1 else 0))%nat.
Proof.
  run_dispatch a s; run_oracles; simpl_state;
    unfold count; rewrite ?filter_app, ?List.length_app;
    cbn [filter isRemoteCall List.length]; lia.
Qed.

(** X17: nothing is retried and nothing is called in the background: the
    number of remote calls of a session is at most the number of clicks on
    the two generate buttons. *)
Theorem no_retries acts : forall s l,
  (count isRemoteCall (snd (runActions env acts s l))
   <= count isRemoteCall l + generateClicks acts)%nat.
Proof.
  induction acts as [|a acts IH]; intros s l; cbn [runActions].
  - unfold generateClicks. cbn [snd filter List.length]. lia.
  - pose proof (dispatch_remote_calls a s l) as Hstep.
    destruct (dispatch env a s l) as [[r s'] l']. cbn [snd] in Hstep.
    specialize (IH s' l'). unfold generateClicks in *. cbn [filter].
    destruct (isGenerateClick a); cbn [List.length]; lia.
Qed.

(** X21: every handler that sets a busy flag clears it again, on success
    and on every failure: after a session neither flag is left set. *)
Theorem busy_flags_cleared acts s l :
  isGeneratingPrompt s = false /\ isGeneratingImage s = false ->
  isGeneratingPrompt (fst (runActions env acts s l)) = false
  /\ isGeneratingImage (fst (runActions env acts s l)) = false.
Proof.
  apply (runActions_invariant
           (fun s _ =>
              isGeneratingPrompt s = false /\ isGeneratingImage s = false)).
  clear. intros a s l [H1 H2].
  run_dispatch a s; run_oracles; simpl_state; split;
    first [assumption | reflexivity].
Qed.

(** X22: in every session the generated image on display is a data URI:
    the string begins with "data:". *)
Theorem generated_image_is_data_uri acts s l :
  (forall u, generatedImage s = Some u -> startsWith u (lit "data:") = true) ->
  forall u,
    generatedImage (fst (runActions env acts s l)) = Some u ->
    startsWith u (lit "data:") = true.
Proof.
  apply (runActions_invariant
           (fun s _ => forall u, generatedImage s = Some u ->
                                 startsWith u (lit "data:") = true)).
  clear. intros a s l H.
  run_dispatch a s; run_oracles; simpl_state; try exact H.
  intros u E. injection E as <-.
  match goal with
  | Hs : scanParts _ = Ok _ |- _ =>
      destruct (GeminiServiceExtra.scanParts_ok _ _ Hs)
        as [pre [part [post [b [_ [_ [_ ->]]]]]]]
  end.
  unfold dataUri. apply JsFacts.startsWith_app.
Qed.



(** *** Sessions that the rendered component allows *)


(** X18: through the rendered component the message "Please enter a prompt
    first." is never set: the button of [handleGenerateImage] is disabled
    exactly when the handler would refuse the prompt. *)
Theorem prompt_validation_unreachable acts s l :
  admissible env acts s l = true ->
  error s <> Some (lit "Please enter a prompt first.") ->
  error (fst (runActions env acts s l))
    <> Some (lit "Please enter a prompt first.").
Proof.
  apply (admissible_invariant
           (fun s _ => error s <> Some (lit "Please enter a prompt first."))).
  clear. intros a s l Ha H.
  run_dispatch a s; run_oracles; simpl_state;
    first [ exact H
          | intros E; discriminate E
          | intros E; vm_compute in E; discriminate E
          | exfalso; cbn [available] in Ha;
            unfold generateImageDisabled in Ha;
            match goal with
            | Hb : truthy _ = false |- _ => rewrite Hb in Ha
            end;
            discriminate Ha ].
Qed.


(** X20: what the describe operation returns is what the synthesize
    operation sends: after the two generate buttons, pressed in that order
    with a file held, the log holds the encoding, the describe call and a
    synthesize call whose text is composed from the returned string.  The
    literal "Failed to generate prompt." of an answer without text is sent
    in the same way. *)
Theorem described_prompt_is_synthesized f s l base64Data resp :
  file s = Some f ->
  readFileToBase64 env l f = Ok base64Data ->
  remoteGenerateContent env (l ++ [FileToBase64 f])
    (describeRequest (type f) base64Data) = Ok resp ->
  trim (orElse (responseText resp) (lit "Failed to generate prompt.")) <> [] ->
  exists rest,
    snd (runActions env [ClickGeneratePrompt; ClickGenerateImage] s l)
      = l ++ [FileToBase64 f;
              GenerateContent (describeRequest (type f) base64Data);
              GenerateContent
                (imageRequest
                   (composePrompt
                      (orElse (responseText resp)
                         (lit "Failed to generate prompt."))
                      (style s) (negativePrompt s))
                   (aspectRatio s))]
          ++ rest
    /\ (forall req, ~ In (GenerateContent req) rest).
Proof.
  intros Hf Hd Hresp Ht. apply JsFacts.truthy_true in Ht.
  cbn [runActions dispatch].
  rewrite (handleGeneratePrompt_started s f s l Hf), Hd, Hresp.
  rewrite handleGenerateImage_run. simpl_state. rewrite Ht.
  rewrite <- !app_assoc. cbn [app].
  match goal with
  | |- context [remoteGenerateContent env ?l' ?req] =>
      destruct (remoteGenerateContent env l' req) as [resp'|e];
      [destruct (scanParts (responseParts resp')) as [u|e]|]
  end; cbn [runActions snd].
  - exists []. split; [reflexivity|]. intros req [].
  - exists [ConsoleError e]. rewrite <- !app_assoc. split; [reflexivity|].
    intros req [H|[]]. discriminate H.
  - exists [ConsoleError e]. rewrite <- !app_assoc. split; [reflexivity|].
    intros req [H|[]]. discriminate H.
Qed.



(** The state of the object URLs: a preview URL is never empty, it is set
    exactly when a file is held, and the URLs created exceed the URLs
    revoked by one when a file is held and by none otherwise. *)
Local Abbreviation urlsBalanced s l :=
  ((forall u, previewUrl s = Some u -> u <> [])
   /\ (file s = None <-> previewUrl s = None)
   /\ count isCreateObjectURL l
        = Nat.add (count isRevokeObjectURL l) (liveUrls s)).

Lemma dispatch_urls a s l :
  (forall l f, objectURL env l f <> []) ->
  available s a = true ->
  urlsBalanced s l ->
  urlsBalanced (snd (fst (dispatch env a s l))) (snd (dispatch env a s l)).
Proof.
  intros Hurl Ha [Hne [Hsync Hcount]].
  assert (Hnone : noFile s = true -> previewUrl s = None).
  { unfold noFile. destruct (file s); [discriminate|]. intros _.
    apply Hsync. reflexivity. }
  assert (Hsome : noFile s = false ->
                  exists u, previewUrl s = Some u /\ truthy u = true).
  { unfold noFile. destruct (file s) eqn:Hf; [|discriminate]. intros _.
    destruct (previewUrl s) as [u|] eqn:Hu.
    - exists u. split; [reflexivity|]. apply JsFacts.truthy_true.
      apply Hne. reflexivity.
    - destruct Hsync as [_ Hback]. specialize (Hback eq_refl).
      discriminate Hback. }
  assert (Hlive : forall s', file s' = file s -> liveUrls s' = liveUrls s).
  { intros s' E. unfold liveUrls, noFile. rewrite E. reflexivity. }
  destruct a; cbn [available] in Ha;
    try (apply andb_true_iff in Ha; destruct Ha as [_ Ha]).
  1, 4: specialize (Hnone Ha).
  9: (apply negb_true_iff in Ha; destruct (Hsome Ha) as [u [Hu Ht]]).
  all: cbn [dispatch];
    unfold handleDragOver, handleDragLeave, setIsDragging, setCopied,
      setActiveTab, setPrompt, setShowAdvanced, setAspectRatio, setStyle,
      setNegativePrompt, modify;
    rewrite ?handleFileChange_run, ?handleDrop_run, ?copyToClipboard_run,
      ?resetSource_run, ?handleGenerateImage_run.
  5: { assert (Hcase : (exists f, file s = Some f) \/ file s = None)
         by (destruct (file s) as [f|]; [left; exists f|right]; reflexivity).
       destruct Hcase as [[f Hf]|Hf];
       [rewrite (handleGeneratePrompt_started s f s _ Hf)
       |rewrite (handleGeneratePrompt_idle s s _ Hf)];
       run_oracles; cbn [fst snd]; rewrite ?Hlive by reflexivity;
       simpl_state;
       (split; [exact Hne|]); (split; [exact Hsync|]);
       unfold count in *; rewrite ?filter_app, ?List.length_app;
       cbn [filter isCreateObjectURL isRevokeObjectURL List.length]; lia. }
  8: { rewrite Hu, Ht. unfold liveUrls in *. rewrite Ha in Hcount.
       unfold noFile. simpl_state.
       split; [intros u0 E; discriminate E|].
       split; [split; reflexivity|].
       unfold count in *. rewrite ?filter_app, ?List.length_app.
       cbn [filter isCreateObjectURL isRevokeObjectURL List.length].
       lia. }
  all: run_oracles; cbn [fst snd]; rewrite ?Hlive by reflexivity;
    try (unfold liveUrls in *; rewrite Ha in Hcount; rewrite ?Ha;
         unfold noFile);
    simpl_state;
    (split; [first [exact Hne
                   | intros u0 E; injection E as <-; apply Hurl]|]);
    (split; [first [exact Hsync | split; intros E; discriminate E]|]);
    unfold count in *; rewrite ?filter_app, ?List.length_app;
    cbn [filter isCreateObjectURL isRevokeObjectURL List.length];
    lia.
Qed.

(** X24: as long as the browser hands out non-empty URLs, the rendered
    component keeps at most one object URL alive: in every session from
    the first render the URLs created are the URLs revoked, plus one
    exactly when a file is held. *)
Theorem object_urls_balanced acts :
  (forall l f, objectURL env l f <> []) ->
  admissible env acts initialState [] = true ->
  count isCreateObjectURL (snd (runActions env acts initialState []))
    = (count isRevokeObjectURL (snd (runActions env acts initialState []))
       + liveUrls (fst (runActions env acts initialState [])))%nat
  /\ (liveUrls (fst (runActions env acts initialState [])) <= 1)%nat.
Proof.
  intros Hurl Hadm. split.
  - apply (admissible_invariant (fun s l => urlsBalanced s l)).
    + intros a s l Ha HP. apply dispatch_urls; assumption.
    + exact Hadm.
    + split; [intros u E; discriminate E|].
      split; [split; reflexivity|reflexivity].
  - unfold liveUrls.
    destruct (noFile (fst (runActions env acts initialState []))); lia.
Qed.

End WithEnv.

(** *** The properties above on the sample data *)

Import Samples.


Lemma accepted_file_is_held_witness :
  processFile (constEnv (Ok imageResponse)) photo
    (withError (Some (lit "Please upload an image or video file."))
       initialState) []
  = (Ok tt,
     withPreviewUrl (Some (lit "blob:preview"))
       (withFile (Some photo) initialState),
     [CreateObjectURL photo]).
Proof.
  apply (accepted_file_is_held (constEnv (Ok imageResponse)) photo
           (withError (Some (lit "Please upload an image or video file."))
              initialState) []).
  split; reflexivity.
Defined.

Lemma only_first_file_is_processed_witness :
  handleDrop (constEnv (Ok imageResponse)) (Some [photo; textFile])
    initialState []
    = processFile (constEnv (Ok imageResponse)) photo
        (withIsDragging false initialState) []
  /\ handleFileChange (constEnv (Ok imageResponse)) (Some [])
       initialState [] = (Ok tt, initialState, []).
Proof.
  split.
  - apply (proj1 (only_first_file_is_processed (constEnv (Ok imageResponse))
                    initialState []) photo [textFile]).
  - apply (proj2 (only_first_file_is_processed (constEnv (Ok imageResponse))
                    initialState []) (Some [])).
    right. reflexivity.
Defined.

(** An answer without text: the literal becomes the prompt. *)
Lemma describe_result_becomes_prompt_witness :
  handleGeneratePrompt (constEnv (Ok (textResponse None)))
    (withFile (Some photo) initialState)
    (withFile (Some photo) initialState) []
  = (Ok tt,
     withPrompt (lit "Failed to generate prompt.")
       (withFile (Some photo) initialState),
     [FileToBase64 photo;
      GenerateContent (describeRequest (lit "image/jpeg") (lit "QUJD"))]).
Proof.
  apply (describe_result_becomes_prompt (constEnv (Ok (textResponse None)))
           (withFile (Some photo) initialState) photo
           (withFile (Some photo) initialState) [] (lit "QUJD")
           (textResponse None)); reflexivity.
Defined.

Lemma encode_failure_makes_no_call_witness :
  count isRemoteCall
    (snd (handleGeneratePrompt unreadableEnv
            (withFile (Some photo) initialState)
            (withFile (Some photo) initialState) []))
  = count isRemoteCall [].
Proof.
  apply (encode_failure_makes_no_call unreadableEnv
           (withFile (Some photo) initialState) photo
           (withFile (Some photo) initialState) []
           {| name := lit "Error"; message := lit "read failed" |});
    reflexivity.
Defined.

Lemma describe_failure_keeps_prompt_witness :
  prompt
    (snd (fst (handleGeneratePrompt (constEnv (Throw networkError))
                 (withFile (Some photo) initialState)
                 (withPrompt (lit "a fox") (withFile (Some photo) initialState))
                 [])))
  = lit "a fox".
Proof.
  apply (describe_failure_keeps_prompt (constEnv (Throw networkError))
           (withFile (Some photo) initialState) photo
           (withPrompt (lit "a fox") (withFile (Some photo) initialState))
           [] (lit "QUJD") networkError); reflexivity.
Defined.

Lemma successful_synthesis_shows_image_witness :
  generatedImage
    (snd (fst (handleGenerateImage (constEnv (Ok imageResponse))
                 (withPrompt (lit "a fox") initialState)
                 (withPrompt (lit "a fox") initialState) [])))
  = Some (lit "data:image/jpeg;base64,AAAA").
Proof.
  apply (successful_synthesis_shows_image (constEnv (Ok imageResponse))
           (withPrompt (lit "a fox") initialState)
           (withPrompt (lit "a fox") initialState) []
           (lit "data:image/jpeg;base64,AAAA")).
  - discriminate.
  - reflexivity.
Defined.

Lemma reset_revokes_created_url_witness :
  runActions (constEnv (Ok imageResponse))
    [FileChange (Some [photo]); ClickChange] initialState []
  = (initialState,
     [CreateObjectURL photo; RevokeObjectURL (lit "blob:preview")]).
Proof.
  apply (reset_revokes_created_url (constEnv (Ok imageResponse)) photo
           initialState []).
  - split; reflexivity.
  - discriminate.
Defined.

Lemma preview_follows_file_witness :
  file (fst (runActions (constEnv (Ok imageResponse))
               [Drop (Some [photo]); Drop (Some [hugeVideo]); ClickChange]
               initialState [])) = None
  <-> previewUrl (fst (runActions (constEnv (Ok imageResponse))
                         [Drop (Some [photo]); Drop (Some [hugeVideo]);
                          ClickChange]
                         initialState [])) = None.
Proof.
  apply (preview_follows_file (constEnv (Ok imageResponse))
           [Drop (Some [photo]); Drop (Some [hugeVideo]); ClickChange]
           initialState []).
  split; reflexivity.
Defined.

Lemma error_is_a_known_message_witness :
  In (lit "Failed to generate image. Please try again.") errorMessages.
Proof.
  apply (error_is_a_known_message (constEnv (Throw networkError))
           [EditPrompt (lit "a fox"); ClickGenerateImage] initialState []).
  - intros m E. discriminate E.
  - reflexivity.
Defined.

Lemma prompt_validation_unreachable_witness :
  error (fst (runActions (constEnv (Ok imageResponse))
                [EditPrompt (lit "a fox"); ClickGenerateImage;
                 EditPrompt [32; 32]]
                initialState []))
  <> Some (lit "Please enter a prompt first.").
Proof.
  apply (prompt_validation_unreachable (constEnv (Ok imageResponse))
           [EditPrompt (lit "a fox"); ClickGenerateImage; EditPrompt [32; 32]]
           initialState []).
  - reflexivity.
  - discriminate.
Defined.


(** The literal of an answer without text is sent to the image model. *)
Lemma described_prompt_is_synthesized_witness :
  exists rest,
    snd (runActions (studioEnv None)
           [ClickGeneratePrompt; ClickGenerateImage]
           (withFile (Some photo) initialState) [])
    = [] ++ [FileToBase64 photo;
             GenerateContent (describeRequest (lit "image/jpeg") (lit "QUJD"));
             GenerateContent
               (imageRequest
                  (composePrompt
                     (orElse None (lit "Failed to generate prompt."))
                     (lit "none") [])
                  (lit "1:1"))]
         ++ rest
    /\ (forall req, ~ In (GenerateContent req) rest).
Proof.
  apply (described_prompt_is_synthesized (studioEnv None) photo
           (withFile (Some photo) initialState) [] (lit "QUJD")
           (textResponse None)).
  - reflexivity.
  - reflexivity.
  - reflexivity.
  - discriminate.
Defined.

Lemma busy_flags_cleared_witness :
  isGeneratingPrompt
    (fst (runActions (constEnv (Throw networkError))
            [Drop (Some [photo]); ClickGeneratePrompt;
             EditPrompt (lit "a fox"); ClickGenerateImage]
            initialState [])) = false
  /\ isGeneratingImage
       (fst (runActions (constEnv (Throw networkError))
               [Drop (Some [photo]); ClickGeneratePrompt;
                EditPrompt (lit "a fox"); ClickGenerateImage]
               initialState [])) = false.
Proof.
  apply (busy_flags_cleared (constEnv (Throw networkError))
           [Drop (Some [photo]); ClickGeneratePrompt;
            EditPrompt (lit "a fox"); ClickGenerateImage]
           initialState []).
  split; reflexivity.
Defined.

Lemma generated_image_is_data_uri_witness :
  startsWith (lit "data:image/jpeg;base64,AAAA") (lit "data:") = true.
Proof.
  apply (generated_image_is_data_uri (constEnv (Ok imageResponse))
           [EditPrompt (lit "a fox"); ClickGenerateImage] initialState []).
  - intros u E. discriminate E.
  - reflexivity.
Defined.


Lemma object_urls_balanced_witness :
  count isCreateObjectURL
    (snd (runActions (constEnv (Ok imageResponse))
            [FileChange (Some [photo]); ClickChange;
             Drop (Some [photo; textFile])]
            initialState []))
  = (count isRevokeObjectURL
       (snd (runActions (constEnv (Ok imageResponse))
               [FileChange (Some [photo]); ClickChange;
                Drop (Some [photo; textFile])]
               initialState []))
     + liveUrls
         (fst (runActions (constEnv (Ok imageResponse))
                 [FileChange (Some [photo]); ClickChange;
                  Drop (Some [photo; textFile])]
                 initialState [])))%nat.
Proof.
  apply (object_urls_balanced (constEnv (Ok imageResponse))
           [FileChange (Some [photo]); ClickChange;
            Drop (Some [photo; textFile])]).
  - intros l f. discriminate.
  - reflexivity.
Defined.

End AppExtra.
